(** * dynamic_inventory.py: the OpenTofu-to-Ansible dynamic inventory script

    A shallow embedding of [inventory/dynamic_inventory.py] and of the part of
    the Python runtime it uses (strings, JSON-shaped values, [dict.get],
    truthiness, [print], [sys.exit], [subprocess.run], [json.dumps]), followed
    by the properties of the script. *)

From Stdlib Require Import List ZArith NArith Bool String Ascii Lia.
From Stdlib Require Import Floats.SpecFloat.
Import ListNotations.

Local Open Scope Z_scope.

(** ** Python strings

    A [str] is a sequence of Unicode code points. *)

Definition pystr := list N.

(** A literal of the source, given by its (ASCII) characters. *)
Definition u (s : string) : pystr := map N_of_ascii (list_ascii_of_string s).

Definition quote : N := 34%N.      (* the double quote character *)
Definition apostrophe : N := 39%N. (* the single quote character *)
Definition backslash : N := 92%N.
Definition newline : N := 10%N.

(** [a == b] on two [str]. *)
Fixpoint pystr_eqb (a b : pystr) : bool :=
  match a, b with
  | [], [] => true
  | x :: a', y :: b' => N.eqb x y && pystr_eqb a' b'
  | _, _ => false
  end.

(** [sep.join(parts)]. *)
Fixpoint join (sep : pystr) (parts : list pystr) : pystr :=
  match parts with
  | [] => []
  | [p] => p
  | p :: rest => p ++ sep ++ join sep rest
  end.

(** [' ' * n]. *)
Definition spaces (n : nat) : pystr := repeat 32%N n.

Fixpoint is_prefix (a b : pystr) : bool :=
  match a, b with
  | [], _ => true
  | x :: a', y :: b' => N.eqb x y && is_prefix a' b'
  | _ :: _, [] => false
  end.

(** [a in b] on two [str]: [a] occurs in [b] as a contiguous run. *)
Fixpoint is_infix (a b : pystr) : bool :=
  is_prefix a b ||
  match b with
  | [] => false
  | _ :: b' => is_infix a b'
  end.

(** ** Python values

    The values [json.loads] can return, which are also all the values the
    script builds: [None], [bool], [int], [float], [str], [list] and [dict].
    A [dict] keeps its items in insertion order, and its keys are hashable:
    among these values, all but a [list] and a [dict]. *)

Inductive pykey : Type :=
| KNone
| KBool (b : bool)
| KInt (z : Z)
| KFloat (f : spec_float)
| KStr (s : pystr).

#[warnings="-register-all"]
Inductive pyval : Type :=
| PNone
| PBool (b : bool)
| PInt (z : Z)
| PFloat (f : spec_float)
| PStr (s : pystr)
| PList (l : list pyval)
| PDict (d : list (pykey * pyval)).

(** The value a key is. *)
Definition key_value (k : pykey) : pyval :=
  match k with
  | KNone => PNone
  | KBool b => PBool b
  | KInt z => PInt z
  | KFloat f => PFloat f
  | KStr s => PStr s
  end.

(** [type(v).__name__]. *)
Definition type_name (v : pyval) : pystr :=
  match v with
  | PNone => u "NoneType"
  | PBool _ => u "bool"
  | PInt _ => u "int"
  | PFloat _ => u "float"
  | PStr _ => u "str"
  | PList _ => u "list"
  | PDict _ => u "dict"
  end.

(** [bool(v)]: [None], [False], zero, the empty string and the empty
    containers are false. *)
Definition truthy (v : pyval) : bool :=
  match v with
  | PNone => false
  | PBool b => b
  | PInt z => negb (z =? 0)
  | PFloat (S754_zero _) => false
  | PFloat _ => true
  | PStr [] => false
  | PStr _ => true
  | PList [] => false
  | PList _ => true
  | PDict [] => false
  | PDict _ => true
  end.

(** [v] as a key of a [dict], where [hash(v)] succeeds. *)
Definition as_key (v : pyval) : option pykey :=
  match v with
  | PNone => Some KNone
  | PBool b => Some (KBool b)
  | PInt z => Some (KInt z)
  | PFloat f => Some (KFloat f)
  | PStr s => Some (KStr s)
  | PList _ | PDict _ => None
  end.

(** Whether an existing key [k'] equals the [str] key [k]: a [str] is equal
    only to a [str] with the same code points. *)
Definition key_is (k : pystr) (k' : pykey) : bool :=
  match k' with
  | KStr s => pystr_eqb s k
  | _ => false
  end.

(** The value stored under the [str] key [k], if any. *)
Fixpoint dict_lookup (d : list (pykey * pyval)) (k : pystr) : option pyval :=
  match d with
  | [] => None
  | (k', v) :: rest => if key_is k k' then Some v else dict_lookup rest k
  end.

(** ** Exceptions and effects *)

Inductive exc : Type :=
| SystemExit (code : Z)
| CalledProcessError (returncode : Z) (cmd : list pystr) (output err : pystr)
| JSONDecodeError (msg : pystr)
| FileNotFoundError (msg : pystr)
| AttributeError (msg : pystr)
| TypeError (msg : pystr)
| OtherError (name msg : pystr).

Inductive res (A : Type) : Type :=
| Ok (a : A)
| Raise (e : exc).
Arguments Ok {A} a.
Arguments Raise {A} e.

(** What a run has done so far: the text written to the two streams and the
    commands it has started. *)
Record io : Type := mkIO {
  stdout : pystr;
  stderr : pystr;
  commands : list (list pystr)
}.

Definition io0 : io := mkIO [] [] [].

(** A statement or expression: it changes the streams and either yields a
    value or raises. What was written before a raise stays written. *)
Definition M (A : Type) : Type := io -> io * res A.

Definition ret {A} (a : A) : M A := fun s => (s, Ok a).
Definition raise {A} (e : exc) : M A := fun s => (s, Raise e).
Definition bind {A B} (m : M A) (k : A -> M B) : M B :=
  fun s =>
    match m s with
    | (s', Ok a) => k a s'
    | (s', Raise e) => (s', Raise e)
    end.

(** [try: body / except ...: handler]: [handler e] is [None] when no
    [except] clause matches [e], which then propagates. *)
Definition try_except {A} (body : M A) (handler : exc -> option (M A)) : M A :=
  fun s =>
    match body s with
    | (s', Ok a) => (s', Ok a)
    | (s', Raise e) =>
        match handler e with
        | Some h => h s'
        | None => (s', Raise e)
        end
    end.

Declare Scope py_scope.
Delimit Scope py_scope with py.
Notation "x <- c1 ;; c2" := (bind c1 (fun x => c2))
  (at level 100, c1 at next level, right associativity) : py_scope.
Notation "c1 ;;; c2" := (bind c1 (fun _ => c2))
  (at level 100, right associativity) : py_scope.

(** A result that is computed without touching the streams. *)
Definition lift {A} (r : res A) : M A := fun s => (s, r).

(** [print(text)] and [print(text, file=sys.stderr)]. *)
Definition print (text : pystr) : M unit :=
  fun s => (mkIO (stdout s ++ text ++ [newline]) (stderr s) (commands s), Ok tt).
Definition print_err (text : pystr) : M unit :=
  fun s => (mkIO (stdout s) (stderr s ++ text ++ [newline]) (commands s), Ok tt).

(** [sys.exit(code)]. *)
Definition sys_exit {A} (code : Z) : M A := raise (SystemExit code).

(** The messages of the two errors of the interpreter the script can run
    into. *)
Definition no_attribute_get (obj : pyval) : pystr :=
  [apostrophe] ++ type_name obj ++ [apostrophe]
  ++ u " object has no attribute 'get'".

Definition unhashable_type (k : pyval) : pystr :=
  u "unhashable type: '" ++ type_name k ++ [apostrophe].

(** [obj.get(key, default)]: only a [dict] has the attribute. *)
Definition py_get (obj : pyval) (key : pystr) (default : pyval) : M pyval :=
  match obj with
  | PDict d =>
      ret (match dict_lookup d key with Some v => v | None => default end)
  | _ => raise (AttributeError (no_attribute_get obj))
  end.

(** The dict display [{k: v}] with one computed key, which is hashed. *)
Definition dict_display1 (k v : pyval) : M pyval :=
  match as_key k with
  | Some key => ret (PDict [(key, v)])
  | None => raise (TypeError (unhashable_type k))
  end.

(** ** The child process *)

(** What starting a command leads to: the start itself raises (the binary
    is missing, say), or the child runs to its end. *)
Inductive run_outcome : Type :=
| StartRaises (e : exc)
| Exited (returncode : Z) (out err : pystr).

(** The environment of a run: what each command does. *)
Definition world : Type := list pystr -> run_outcome.

Record CompletedProcess : Type := mkCompleted {
  cp_returncode : Z;
  cp_stdout : pystr;
  cp_stderr : pystr
}.

(** [subprocess.run(cmd, capture_output=True, text=True, check=True)]: both
    streams of the child go to pipes and end in the result (or in the
    exception), never in the streams of the script. *)
Definition subprocess_run (w : world) (cmd : list pystr) : M CompletedProcess :=
  fun s =>
    let s' := mkIO (stdout s) (stderr s) (commands s ++ [cmd]) in
    match w cmd with
    | StartRaises e => (s', Raise e)
    | Exited rc out err =>
        if rc =? 0 then (s', Ok (mkCompleted rc out err))
        else (s', Raise (CalledProcessError rc cmd out err))
    end.

(** ** [json.dumps] *)

(** [int.__repr__]: the decimal digits, with a minus sign below zero. *)
Fixpoint uint_digits (d : Decimal.uint) : pystr :=
  match d with
  | Decimal.Nil => []
  | Decimal.D0 r => 48%N :: uint_digits r
  | Decimal.D1 r => 49%N :: uint_digits r
  | Decimal.D2 r => 50%N :: uint_digits r
  | Decimal.D3 r => 51%N :: uint_digits r
  | Decimal.D4 r => 52%N :: uint_digits r
  | Decimal.D5 r => 53%N :: uint_digits r
  | Decimal.D6 r => 54%N :: uint_digits r
  | Decimal.D7 r => 55%N :: uint_digits r
  | Decimal.D8 r => 56%N :: uint_digits r
  | Decimal.D9 r => 57%N :: uint_digits r
  end.

Definition int_repr (z : Z) : pystr :=
  match Z.to_int z with
  | Decimal.Pos d => uint_digits d
  | Decimal.Neg d => 45%N :: uint_digits d
  end.

Definition hex_digit (d : N) : N :=
  if (d <? 10)%N then (48 + d)%N else (87 + d)%N.

(** ['{0:04x}'.format(n)] for [n] below [0x10000]. *)
Definition hex4 (n : N) : pystr :=
  [hex_digit (N.shiftr n 12 mod 16); hex_digit (N.shiftr n 8 mod 16);
   hex_digit (N.shiftr n 4 mod 16); hex_digit (n mod 16)]%N.

(** The replacement of one code point in [json.encoder]'s
    [py_encode_basestring_ascii]: the printable ASCII characters other than
    the double quote and the backslash stand for themselves. *)
Definition escape_ascii (c : N) : pystr :=
  if (c =? 34)%N then [backslash; quote]
  else if (c =? 92)%N then [backslash; backslash]
  else if (c =? 10)%N then backslash :: u "n"
  else if (c =? 13)%N then backslash :: u "r"
  else if (c =? 9)%N then backslash :: u "t"
  else if (c =? 12)%N then backslash :: u "f"
  else if (c =? 8)%N then backslash :: u "b"
  else if ((32 <=? c) && (c <=? 126))%N then [c]
  else if (c <? 65536)%N then backslash :: u "u" ++ hex4 c
  else
    let n := (c - 65536)%N in
    let s1 := N.lor 55296 (N.land (N.shiftr n 10) 1023) in
    let s2 := N.lor 56320 (N.land n 1023) in
    (backslash :: u "u" ++ hex4 s1) ++ (backslash :: u "u" ++ hex4 s2).

Definition encode_basestring_ascii (s : pystr) : pystr :=
  [quote] ++ flat_map escape_ascii s ++ [quote].

Section Json.

(** [float.__repr__] on a finite float (the shortest decimal text that
    reads back as the same float) belongs to the interpreter. *)
Variable float_repr : spec_float -> pystr.

(** [floatstr] of [json.encoder], with [allow_nan=True]. *)
Definition floatstr (f : spec_float) : pystr :=
  match f with
  | S754_nan => u "NaN"
  | S754_infinity false => u "Infinity"
  | S754_infinity true => u "-Infinity"
  | _ => float_repr f
  end.

(** The text of a [dict] key: a [str] stays; a number, a [bool] and [None]
    turn into text. *)
Definition key_text (k : pykey) : pystr :=
  match k with
  | KStr s => s
  | KFloat f => floatstr f
  | KBool true => u "true"
  | KBool false => u "false"
  | KNone => u "null"
  | KInt z => int_repr z
  end.

(** [indent] is [None] or the number of spaces of one level. *)
Variable indent : option nat.

Definition item_separator : pystr :=
  match indent with Some _ => u "," | None => u ", " end.
Definition key_separator : pystr := u ": ".

(** The line break and margin put before an item of a container at
    nesting depth [level], when there is an [indent]. *)
Definition newline_indent (level : nat) : pystr :=
  match indent with
  | Some n => newline :: spaces (n * level)
  | None => []
  end.

(** [_iterencode] of [json.encoder], its chunks already joined. On these
    values it raises nothing. *)
Fixpoint iterencode (level : nat) (o : pyval) {struct o} : pystr :=
  match o with
  | PStr s => encode_basestring_ascii s
  | PNone => u "null"
  | PBool true => u "true"
  | PBool false => u "false"
  | PInt z => int_repr z
  | PFloat f => floatstr f
  | PList [] => u "[]"
  | PList lst =>
      let separator := item_separator ++ newline_indent (S level) in
      u "[" ++ newline_indent (S level)
      ++ (fix items (first : bool) (l : list pyval) : pystr :=
            match l with
            | [] => []
            | value :: rest =>
                (if first then [] else separator)
                ++ iterencode (S level) value ++ items false rest
            end) true lst
      ++ newline_indent level ++ u "]"
  | PDict [] => u "{}"
  | PDict dct =>
      let separator := item_separator ++ newline_indent (S level) in
      u "{" ++ newline_indent (S level)
      ++ (fix items (first : bool) (l : list (pykey * pyval)) : pystr :=
            match l with
            | [] => []
            | (key, value) :: rest =>
                (if first then [] else separator)
                ++ encode_basestring_ascii (key_text key) ++ key_separator
                ++ iterencode (S level) value ++ items false rest
            end) true dct
      ++ newline_indent level ++ u "}"
  end.

(** [json.dumps(obj, indent=indent)]. *)
Definition json_dumps (obj : pyval) : pystr := iterencode 0 obj.

End Json.

(** ** The script *)

Local Open Scope py_scope.

(** ['%s' % cmd] for a command whose words are printable ASCII without
    quotes or backslashes, as the words of the one command of the script
    are: the [repr] of the list. *)
Definition cmd_repr (cmd : list pystr) : pystr :=
  u "[" ++ join (u ", ") (map (fun a => [apostrophe] ++ a ++ [apostrophe]) cmd)
  ++ u "]".

Section Script.

(** [json.loads]: the parsed value, or the exception it raises. *)
Variable json_loads : pystr -> res pyval.

(** The name [signal.Signals(n)] has for the signal numbered [n], where
    the platform has a signal of that number. *)
Variable signal_name : Z -> option pystr.

Variable float_repr : spec_float -> pystr.

(** [str(e)], as the f-strings of the script format an exception. For a
    [CalledProcessError] this is [subprocess]'s [__str__], which reports
    the command and how it ended. *)
Definition exc_str (e : exc) : pystr :=
  match e with
  | SystemExit code => int_repr code
  | CalledProcessError returncode cmd _ _ =>
      if returncode <? 0 then
        match signal_name (- returncode) with
        | Some name =>
            u "Command '" ++ cmd_repr cmd ++ u "' died with <Signals."
            ++ name ++ u ": " ++ int_repr (- returncode) ++ u ">."
        | None =>
            u "Command '" ++ cmd_repr cmd ++ u "' died with unknown signal "
            ++ int_repr (- returncode) ++ u "."
        end
      else
        u "Command '" ++ cmd_repr cmd ++ u "' returned non-zero exit status "
        ++ int_repr returncode ++ u "."
  | JSONDecodeError msg => msg
  | FileNotFoundError msg => msg
  | AttributeError msg => msg
  | TypeError msg => msg
  | OtherError _ msg => msg
  end.

Definition tofu_cmd : list pystr := [u "tofu"; u "output"; u "-json"].

(** [get_tofu_outputs()]. *)
Definition get_tofu_outputs (w : world) : M pyval :=
  try_except
    (result <- subprocess_run w tofu_cmd ;;
     lift (json_loads (cp_stdout result)))
    (fun e =>
       match e with
       | CalledProcessError _ _ _ _ =>
           Some (print_err (u "Error running tofu output: " ++ exc_str e) ;;;
                 sys_exit 1)
       | JSONDecodeError _ =>
           Some (print_err (u "Error parsing tofu output: " ++ exc_str e) ;;;
                 sys_exit 1)
       | FileNotFoundError _ =>
           Some (print_err
                   (u "Error: 'tofu' command not found. Please ensure OpenTofu is installed.") ;;;
                 sys_exit 1)
       | _ => None
       end).

(** The body of [build_inventory()] after its first statement: from the
    parsed outputs to the inventory. *)
Definition build_inventory_body (outputs : pyval) : M pyval :=
  (* Extract values from outputs *)
  ip_entry <- py_get outputs (u "instance_public_ip") (PDict []) ;;
  public_ip <- py_get ip_entry (u "value") PNone ;;
  user_entry <- py_get outputs (u "ssh_user") (PDict []) ;;
  ssh_user <- py_get user_entry (u "value") (PStr (u "ec2-user")) ;;
  (if negb (truthy public_ip) then
     print_err (u "Error: No public IP found in OpenTofu outputs") ;;;
     sys_exit 1
   else ret tt) ;;;
  (* Build inventory structure *)
  hostvars <- dict_display1 public_ip
                (PDict [(KStr (u "ansible_host"), public_ip);
                        (KStr (u "ansible_user"), ssh_user)]) ;;
  ret (PDict
         [(KStr (u "web_servers"),
           PDict [(KStr (u "hosts"), PList [public_ip]);
                  (KStr (u "vars"),
                   PDict [(KStr (u "ansible_user"), ssh_user);
                          (KStr (u "ansible_ssh_private_key_file"),
                           PStr (u "./demo-key"))])]);
          (KStr (u "_meta"),
           PDict [(KStr (u "hostvars"), hostvars)])]).

(** [build_inventory()]. *)
Definition build_inventory (w : world) : M pyval :=
  outputs <- get_tofu_outputs w ;;
  build_inventory_body outputs.

Definition usage : pystr :=
  u "Usage: dynamic_inventory.py --list or --host <hostname>".

(** [main()], with [sys.argv] as [argv]. *)
Definition main (argv : list pystr) (w : world) : M unit :=
  if (List.length argv =? 2)%nat && pystr_eqb (nth 1 argv []) (u "--list") then
    inventory <- build_inventory w ;;
    print (json_dumps float_repr (Some 2%nat) inventory)
  else if (List.length argv =? 3)%nat && pystr_eqb (nth 1 argv []) (u "--host") then
    (* Return empty dict for --host as we provide hostvars in _meta *)
    print (json_dumps float_repr None (PDict []))
  else
    print_err usage ;;;
    sys_exit 1.

(** How a run of the script ends. An exception other than [SystemExit]
    that reaches the top is reported by the interpreter (a traceback on the
    error stream) with exit status 1; [written_err] holds what the script
    itself printed there. An interrupt from the keyboard, which ends the
    process by its signal, is outside this record. *)
Record process_end : Type := mkEnd {
  written_out : pystr;
  written_err : pystr;
  started : list (list pystr);
  uncaught : option exc;
  exit_status : Z
}.

(** [python dynamic_inventory.py args...], in a fresh process. *)
Definition run (argv : list pystr) (w : world) : process_end :=
  match main argv w io0 with
  | (s, Ok _) => mkEnd (stdout s) (stderr s) (commands s) None 0
  | (s, Raise (SystemExit code)) =>
      mkEnd (stdout s) (stderr s) (commands s) None code
  | (s, Raise e) => mkEnd (stdout s) (stderr s) (commands s) (Some e) 1
  end.

End Script.

(** ** Reading a document *)

(** [v[key]] for a [str] key, where [v] is a [dict] that has it. *)
Definition subscript (v : pyval) (key : pystr) : option pyval :=
  match v with
  | PDict d => dict_lookup d key
  | _ => None
  end.

(** [v[k1][k2]...]. *)
Fixpoint at_path (v : pyval) (path : list pystr) : option pyval :=
  match path with
  | [] => Some v
  | k :: rest =>
      match subscript v k with
      | Some v' => at_path v' rest
      | None => None
      end
  end.

(** [list(v.items())]. *)
Definition items (v : pyval) : list (pykey * pyval) :=
  match v with
  | PDict d => d
  | _ => []
  end.

(** [raw[name]["value"]], where both keys are there. *)
Definition output_value (raw : pyval) (name : pystr) : option pyval :=
  at_path raw [name; u "value"].

(** The shape of the parsed outputs: a mapping from names to objects. *)
Definition is_object (v : pyval) : bool :=
  match v with PDict _ => true | _ => false end.

Definition is_raw_state_output (raw : pyval) : bool :=
  match raw with
  | PDict d =>
      forallb (fun kv => match fst kv with KStr _ => is_object (snd kv) | _ => false end) d
  | _ => false
  end.

(** The two places of the document that hold the SSH user name. *)
Definition group_ansible_user (doc : pyval) : option pyval :=
  at_path doc [u "web_servers"; u "vars"; u "ansible_user"].

Definition host_ansible_users (doc : pyval) : list (option pyval) :=
  match at_path doc [u "_meta"; u "hostvars"] with
  | Some hv => map (fun kv => subscript (snd kv) (u "ansible_user")) (items hv)
  | None => []
  end.

(** The host list of the group and the keys of the per-host block. *)
Definition group_hosts (doc : pyval) : option pyval :=
  at_path doc [u "web_servers"; u "hosts"].

Definition hostvars_keys (doc : pyval) : option (list pyval) :=
  match at_path doc [u "_meta"; u "hostvars"] with
  | Some (PDict d) => Some (map (fun kv => key_value (fst kv)) d)
  | _ => None
  end.

(** ** Sample runs *)

Module Sample.

Definition no_signal : Z -> option pystr := fun _ => None.
Definition no_float : spec_float -> pystr := fun _ => [].

Definition q (s : string) : pystr := [quote] ++ u s ++ [quote].

(** The text the command prints for the two outputs of the demo, and the
    value [json.loads] makes of it. *)
Definition outputs_text : pystr :=
  u "{" ++ q "instance_public_ip" ++ u ": {" ++ q "value" ++ u ": "
  ++ q "203.0.113.5" ++ u "}, " ++ q "ssh_user" ++ u ": {" ++ q "value"
  ++ u ": " ++ q "ubuntu" ++ u "}}".

Definition outputs : pyval :=
  PDict [(KStr (u "instance_public_ip"),
          PDict [(KStr (u "value"), PStr (u "203.0.113.5"))]);
         (KStr (u "ssh_user"),
          PDict [(KStr (u "value"), PStr (u "ubuntu"))])].

(** A [json.loads] that knows the texts of a table and rejects the rest. *)
Fixpoint loads_of (table : list (pystr * pyval)) (text : pystr) : res pyval :=
  match table with
  | [] => Raise (JSONDecodeError (u "Expecting value: line 1 column 1 (char 0)"))
  | (t, v) :: rest => if pystr_eqb t text then Ok v else loads_of rest text
  end.

(** Outputs without a user, with a null user, without anything, and of
    other shapes. *)
Definition no_user_text : pystr :=
  u "{" ++ q "instance_public_ip" ++ u ": {" ++ q "value" ++ u ": "
  ++ q "203.0.113.5" ++ u "}}".

Definition no_user : pyval :=
  PDict [(KStr (u "instance_public_ip"),
          PDict [(KStr (u "value"), PStr (u "203.0.113.5"))])].

Definition null_user_text : pystr :=
  u "{" ++ q "instance_public_ip" ++ u ": {" ++ q "value" ++ u ": "
  ++ q "203.0.113.5" ++ u "}, " ++ q "ssh_user" ++ u ": {" ++ q "value"
  ++ u ": null}}".

Definition null_user : list (pykey * pyval) :=
  [(KStr (u "instance_public_ip"),
    PDict [(KStr (u "value"), PStr (u "203.0.113.5"))]);
   (KStr (u "ssh_user"), PDict [(KStr (u "value"), PNone)])].

Definition empty_ip_text : pystr :=
  u "{" ++ q "instance_public_ip" ++ u ": {" ++ q "value" ++ u ": "
  ++ [quote; quote] ++ u "}}".

Definition empty_ip : pyval :=
  PDict [(KStr (u "instance_public_ip"), PDict [(KStr (u "value"), PStr [])])].

Definition string_entry_text : pystr :=
  u "{" ++ q "instance_public_ip" ++ u ": " ++ q "203.0.113.5" ++ u "}".

Definition string_entry : pyval :=
  PDict [(KStr (u "instance_public_ip"), PStr (u "203.0.113.5"))].

Definition array_entry_text : pystr :=
  u "{" ++ q "ssh_user" ++ u ": [" ++ q "ubuntu" ++ u "]}".

Definition array_entry : pyval :=
  PDict [(KStr (u "ssh_user"), PList [PStr (u "ubuntu")])].

Definition array_address_text : pystr :=
  u "{" ++ q "instance_public_ip" ++ u ": {" ++ q "value" ++ u ": ["
  ++ q "203.0.113.5" ++ u "]}}".

Definition array_address : pyval :=
  PDict [(KStr (u "instance_public_ip"),
          PDict [(KStr (u "value"), PList [PStr (u "203.0.113.5")])])].

Definition loads : pystr -> res pyval :=
  loads_of [(outputs_text, outputs);
            (no_user_text, no_user);
            (null_user_text, PDict null_user);
            (empty_ip_text, empty_ip);
            (u "{}", PDict []);
            (u "[]", PList []);
            (string_entry_text, string_entry);
            (array_entry_text, array_entry);
            (array_address_text, array_address)].

(** A world in which the command prints [text] on its standard output and
    [err] on its error stream, and exits with [rc]. *)
Definition tofu_prints (rc : Z) (text err : pystr) : world :=
  fun _ => Exited rc text err.

(** What the command says when there is no state to read. *)
Definition tofu_complaint : pystr := u "Error: Failed to load state".

Definition argv_list : list pystr := [u "dynamic_inventory.py"; u "--list"].

(** What [--list] prints for these outputs, line by line. *)
Definition inventory_text : pystr :=
  join [newline]
    [u "{";
     u "  " ++ q "web_servers" ++ u ": {";
     u "    " ++ q "hosts" ++ u ": [";
     u "      " ++ q "203.0.113.5";
     u "    ],";
     u "    " ++ q "vars" ++ u ": {";
     u "      " ++ q "ansible_user" ++ u ": " ++ q "ubuntu" ++ u ",";
     u "      " ++ q "ansible_ssh_private_key_file" ++ u ": " ++ q "./demo-key";
     u "    }";
     u "  },";
     u "  " ++ q "_meta" ++ u ": {";
     u "    " ++ q "hostvars" ++ u ": {";
     u "      " ++ q "203.0.113.5" ++ u ": {";
     u "        " ++ q "ansible_host" ++ u ": " ++ q "203.0.113.5" ++ u ",";
     u "        " ++ q "ansible_user" ++ u ": " ++ q "ubuntu";
     u "      }";
     u "    }";
     u "  }";
     u "}"].

End Sample.

(** The produced document schema of the interface description, for a host
    identifier and a user name. *)
Definition schema_document (publicIp : pykey) (sshUser : pyval) : pyval :=
  PDict
    [(KStr (u "web_servers"),
      PDict [(KStr (u "hosts"), PList [key_value publicIp]);
             (KStr (u "vars"),
              PDict [(KStr (u "ansible_user"), sshUser);
                     (KStr (u "ansible_ssh_private_key_file"),
                      PStr (u "./demo-key"))])]);
     (KStr (u "_meta"),
      PDict [(KStr (u "hostvars"),
              PDict [(publicIp,
                      PDict [(KStr (u "ansible_host"), key_value publicIp);
                             (KStr (u "ansible_user"), sshUser)])])])].

(** The line the script prints when the address is missing. *)
Definition missing_ip_message : pystr :=
  u "Error: No public IP found in OpenTofu outputs".

(** The streams after one more line on the error stream. *)
Definition with_err_line (s : io) (line : pystr) : io :=
  mkIO (stdout s) (stderr s ++ line ++ [newline]) (commands s).

(** The streams after the command has been started. *)
Definition after_tofu (s : io) : io :=
  mkIO (stdout s) (stderr s) (commands s ++ [tofu_cmd]).

(** Whether the entry the script consults under [name] is an object, or is
    not there at all. *)
Definition consulted_entry_ok (d : list (pykey * pyval)) (name : pystr) : bool :=
  match dict_lookup d name with
  | Some e => is_object e
  | None => true
  end.

(** The shape the field extraction can work on: a mapping in which the two
    consulted entries, where present, are objects. *)
Definition extraction_ready (raw : pyval) : bool :=
  match raw with
  | PDict d =>
      consulted_entry_ok d (u "instance_public_ip")
      && consulted_entry_ok d (u "ssh_user")
  | _ => false
  end.

(** The exceptions the three [except] clauses of [get_tofu_outputs]
    catch. *)
Definition handled (e : exc) : bool :=
  match e with
  | CalledProcessError _ _ _ _ | JSONDecodeError _ | FileNotFoundError _ => true
  | _ => false
  end.

(** Text made of ASCII characters only. *)
Definition is_ascii (t : pystr) : bool := forallb (fun c => (c <? 128)%N) t.

(** The [ansible_host] of every host of the per-host block, the path of the
    key file of the group, and the keys of the document itself. *)
Definition host_ansible_hosts (doc : pyval) : list (option pyval) :=
  match at_path doc [u "_meta"; u "hostvars"] with
  | Some hv => map (fun kv => subscript (snd kv) (u "ansible_host")) (items hv)
  | None => []
  end.

Definition group_key_file (doc : pyval) : option pyval :=
  at_path doc [u "web_servers"; u "vars"; u "ansible_ssh_private_key_file"].

Definition top_level_keys (doc : pyval) : list pyval :=
  map (fun kv => key_value (fst kv)) (items doc).

(** The lines [--list] prints for an address and a user whose JSON texts
    (quoted and escaped) are [ip] and [user]. *)
Definition inventory_lines (ip user : pystr) : pystr :=
  join [newline]
    [u "{";
     u "  " ++ Sample.q "web_servers" ++ u ": {";
     u "    " ++ Sample.q "hosts" ++ u ": [";
     u "      " ++ ip;
     u "    ],";
     u "    " ++ Sample.q "vars" ++ u ": {";
     u "      " ++ Sample.q "ansible_user" ++ u ": " ++ user ++ u ",";
     u "      " ++ Sample.q "ansible_ssh_private_key_file" ++ u ": "
     ++ Sample.q "./demo-key";
     u "    }";
     u "  },";
     u "  " ++ Sample.q "_meta" ++ u ": {";
     u "    " ++ Sample.q "hostvars" ++ u ": {";
     u "      " ++ ip ++ u ": {";
     u "        " ++ Sample.q "ansible_host" ++ u ": " ++ ip ++ u ",";
     u "        " ++ Sample.q "ansible_user" ++ u ": " ++ user;
     u "      }";
     u "    }";
     u "  }";
     u "}"].

(** More sample outputs: a third output beside the two the script reads,
    in another order, and names outside ASCII. *)
Module More.

Definition with_region_text : pystr :=
  u "{" ++ Sample.q "region" ++ u ": {" ++ Sample.q "value" ++ u ": "
  ++ Sample.q "eu-west-1" ++ u "}, " ++ Sample.q "ssh_user" ++ u ": {"
  ++ Sample.q "value" ++ u ": " ++ Sample.q "ubuntu" ++ u "}, "
  ++ Sample.q "instance_public_ip" ++ u ": {" ++ Sample.q "value" ++ u ": "
  ++ Sample.q "203.0.113.5" ++ u ", " ++ Sample.q "sensitive" ++ u ": false}}".

Definition with_region : pyval :=
  PDict [(KStr (u "region"), PDict [(KStr (u "value"), PStr (u "eu-west-1"))]);
         (KStr (u "ssh_user"), PDict [(KStr (u "value"), PStr (u "ubuntu"))]);
         (KStr (u "instance_public_ip"),
          PDict [(KStr (u "value"), PStr (u "203.0.113.5"));
                 (KStr (u "sensitive"), PBool false)])].

(** A user name with an e acute (code point 233) in it. *)
Definition accented_user : pystr := u "ren" ++ [233%N].

Definition accented_text : pystr :=
  u "{" ++ Sample.q "instance_public_ip" ++ u ": {" ++ Sample.q "value"
  ++ u ": " ++ Sample.q "203.0.113.5" ++ u "}, " ++ Sample.q "ssh_user"
  ++ u ": {" ++ Sample.q "value" ++ u ": " ++ [quote] ++ accented_user
  ++ [quote] ++ u "}}".

Definition accented : pyval :=
  PDict [(KStr (u "instance_public_ip"),
          PDict [(KStr (u "value"), PStr (u "203.0.113.5"))]);
         (KStr (u "ssh_user"),
          PDict [(KStr (u "value"), PStr accented_user)])].

Definition loads : pystr -> res pyval :=
  Sample.loads_of [(Sample.outputs_text, Sample.outputs);
                   (with_region_text, with_region);
                   (accented_text, accented);
                   (Sample.array_address_text, Sample.array_address)].

(** A [json.loads] that fails in a way the script does not expect. *)
Definition loads_recursion : pystr -> res pyval :=
  fun _ => Raise (OtherError (u "RecursionError")
                             (u "maximum recursion depth exceeded")).

(** A world in which the command cannot be started for want of rights. *)
Definition no_permission : world :=
  fun _ => StartRaises (OtherError (u "PermissionError")
                                   (u "[Errno 13] Permission denied: 'tofu'")).

Definition not_found : world :=
  fun _ => StartRaises (FileNotFoundError
                          (u "[Errno 2] No such file or directory: 'tofu'")).

End More.

(** * Properties *)

Lemma pystr_eqb_refl (a : pystr) : pystr_eqb a a = true.
Proof.
  induction a as [|x a IH]; simpl; [reflexivity|].
  now rewrite N.eqb_refl, IH.
Qed.

Lemma pystr_eqb_eq (a b : pystr) : pystr_eqb a b = true <-> a = b.
Proof.
  split; [|intros ->; apply pystr_eqb_refl].
  revert b; induction a as [|x a IH]; intros [|y b]; simpl; try discriminate.
  - reflexivity.
  - intros H. apply andb_true_iff in H as [Hx Hab].
    apply N.eqb_eq in Hx. apply IH in Hab. now subst.
Qed.

(** Every entry of a mapping of the expected shape is an object. *)
Lemma raw_entry_object (d : list (pykey * pyval)) (k : pystr) (e : pyval) :
  is_raw_state_output (PDict d) = true ->
  dict_lookup d k = Some e ->
  exists de, e = PDict de.
Proof.
  simpl. induction d as [|[k' v] d IH]; simpl; [discriminate|].
  intros H Hl. apply andb_true_iff in H as [Hkv Hd].
  destruct (key_is k k').
  - injection Hl as <-. destruct k'; try discriminate.
    destruct v; try discriminate. eauto.
  - auto.
Qed.

Lemma raw_is_dict (raw : pyval) :
  is_raw_state_output raw = true -> exists d, raw = PDict d.
Proof. destruct raw; try discriminate. eauto. Qed.

(** [output_value] read off the two lookups. *)
Lemma output_value_some (d : list (pykey * pyval)) (name : pystr) (v : pyval) :
  output_value (PDict d) name = Some v <->
  exists de, dict_lookup d name = Some (PDict de)
             /\ dict_lookup de (u "value") = Some v.
Proof.
  unfold output_value, at_path, subscript. split.
  - destruct (dict_lookup d name) as [[]|]; try discriminate.
    destruct (dict_lookup d0 (u "value")) eqn:E; try discriminate.
    intros [= <-]. eauto.
  - intros (de & -> & ->). reflexivity.
Qed.

Lemma output_value_none (d : list (pykey * pyval)) (name : pystr) :
  is_raw_state_output (PDict d) = true ->
  output_value (PDict d) name = None ->
  dict_lookup d name = None
  \/ exists de, dict_lookup d name = Some (PDict de)
                /\ dict_lookup de (u "value") = None.
Proof.
  intros Hraw. unfold output_value, at_path, subscript.
  destruct (dict_lookup d name) as [e|] eqn:E; [|now left].
  destruct (raw_entry_object _ _ _ Hraw E) as [de ->].
  destruct (dict_lookup de (u "value")) eqn:E'; [discriminate|].
  intros _. right. eauto.
Qed.

(** The body of [build_inventory] on a mapping whose two consulted entries,
    where present, are objects: the missing-address exit, the refusal of an
    unhashable address, or the document of the schema. *)
Lemma body_on_ready (d : list (pykey * pyval)) (s : io) :
  extraction_ready (PDict d) = true ->
  build_inventory_body (PDict d) s =
    let public_ip :=
      match output_value (PDict d) (u "instance_public_ip") with
      | Some v => v
      | None => PNone
      end in
    let ssh_user :=
      match output_value (PDict d) (u "ssh_user") with
      | Some v => v
      | None => PStr (u "ec2-user")
      end in
    if truthy public_ip then
      match as_key public_ip with
      | Some key => (s, Ok (schema_document key ssh_user))
      | None => (s, Raise (TypeError (unhashable_type public_ip)))
      end
    else (with_err_line s missing_ip_message, Raise (SystemExit 1)).
Proof.
  intros Hready. cbn [extraction_ready] in Hready.
  apply andb_true_iff in Hready as [Hip Hssh].
  unfold consulted_entry_ok in Hip, Hssh.
  unfold build_inventory_body, bind, py_get, ret, output_value, at_path, subscript.
  destruct (dict_lookup d (u "instance_public_ip")) as [e|].
  - destruct e as [| | | | | |de]; try discriminate.
    destruct (dict_lookup d (u "ssh_user")) as [e'|].
    + destruct e' as [| | | | | |de']; try discriminate.
      destruct (dict_lookup de (u "value")) as [ip|];
        destruct (dict_lookup de' (u "value")) as [user|];
        cbn [truthy negb]; try reflexivity;
        destruct (truthy ip); cbn [negb]; try reflexivity;
        unfold dict_display1; destruct ip; reflexivity.
    + cbn [dict_lookup].
      destruct (dict_lookup de (u "value")) as [ip|];
        cbn [truthy negb]; try reflexivity;
        destruct (truthy ip); cbn [negb]; try reflexivity;
        unfold dict_display1; destruct ip; reflexivity.
  - cbn [dict_lookup truthy negb].
    destruct (dict_lookup d (u "ssh_user")) as [e'|].
    + destruct e' as [| | | | | |de']; try discriminate.
      destruct (dict_lookup de' (u "value")); reflexivity.
    + reflexivity.
Qed.

(** A mapping of objects has that shape. *)
Lemma raw_ready (raw : pyval) :
  is_raw_state_output raw = true -> extraction_ready raw = true.
Proof.
  intros Hraw. destruct (raw_is_dict _ Hraw) as [d ->].
  cbn [extraction_ready]. unfold consulted_entry_ok.
  apply andb_true_iff. split.
  - destruct (dict_lookup d (u "instance_public_ip")) as [e|] eqn:E; [|reflexivity].
    now destruct (raw_entry_object _ _ _ Hraw E) as [de ->].
  - destruct (dict_lookup d (u "ssh_user")) as [e|] eqn:E; [|reflexivity].
    now destruct (raw_entry_object _ _ _ Hraw E) as [de ->].
Qed.

Lemma ready_is_dict (raw : pyval) :
  extraction_ready raw = true -> exists d, raw = PDict d.
Proof. destruct raw; try discriminate. eauto. Qed.

(** On any other shape the first [.get] that meets a value without that
    attribute raises, before anything is printed. *)
Lemma body_not_ready (raw : pyval) :
  extraction_ready raw = false ->
  exists msg, forall s,
    build_inventory_body raw s = (s, Raise (AttributeError msg)).
Proof.
  destruct raw as [|b|z|f|text|l|d];
    try (intros _; eexists; intros s; reflexivity).
  cbn [extraction_ready]. unfold consulted_entry_ok.
  destruct (dict_lookup d (u "instance_public_ip")) as [e|] eqn:Eip.
  - destruct (is_object e) eqn:He.
    + cbn [andb].
      destruct (dict_lookup d (u "ssh_user")) as [e'|] eqn:Essh; [|discriminate].
      intros He'. exists (no_attribute_get e'). intros s.
      unfold build_inventory_body, bind, py_get, ret. rewrite Eip, Essh.
      destruct e; try discriminate. destruct e'; try discriminate; reflexivity.
    + intros _. exists (no_attribute_get e). intros s.
      unfold build_inventory_body, bind, py_get, ret. rewrite Eip.
      destruct e; try discriminate; reflexivity.
  - cbn [andb].
    destruct (dict_lookup d (u "ssh_user")) as [e'|] eqn:Essh; [|discriminate].
    intros He'. exists (no_attribute_get e'). intros s.
    unfold build_inventory_body, bind, py_get, ret. rewrite Eip, Essh.
    destruct e'; try discriminate; reflexivity.
Qed.

(** Whatever the outputs are, the body only adds text to the error stream,
    and both that text and the result are a function of the outputs alone. *)
Lemma body_frame (raw : pyval) :
  exists extra r, forall s,
    build_inventory_body raw s
    = (mkIO (stdout s) (stderr s ++ extra) (commands s), r).
Proof.
  assert (Hsame : forall s : io, s = mkIO (stdout s) (stderr s ++ []) (commands s)).
  { intros [o e c]. cbn. now rewrite app_nil_r. }
  destruct (extraction_ready raw) eqn:Hready.
  - destruct (ready_is_dict _ Hready) as [d ->].
    set (public_ip := match output_value (PDict d) (u "instance_public_ip") with
                      | Some v => v | None => PNone end).
    set (ssh_user := match output_value (PDict d) (u "ssh_user") with
                     | Some v => v | None => PStr (u "ec2-user") end).
    destruct (truthy public_ip) eqn:Ht.
    + destruct (as_key public_ip) as [key|] eqn:Hk.
      * exists [], (Ok (schema_document key ssh_user)). intros s.
        rewrite (body_on_ready _ _ Hready). cbn zeta.
        fold public_ip ssh_user. rewrite Ht, Hk. now rewrite <- Hsame.
      * exists [], (Raise (TypeError (unhashable_type public_ip))). intros s.
        rewrite (body_on_ready _ _ Hready). cbn zeta.
        fold public_ip ssh_user. rewrite Ht, Hk. now rewrite <- Hsame.
    + exists (missing_ip_message ++ [newline]), (Raise (SystemExit 1)). intros s.
      rewrite (body_on_ready _ _ Hready). cbn zeta.
      fold public_ip. rewrite Ht. reflexivity.
  - destruct (body_not_ready _ Hready) as [msg Hmsg].
    exists [], (Raise (AttributeError msg)). intros s.
    rewrite Hmsg. now rewrite <- Hsame.
Qed.

(** A document, or the missing-address exit, comes only out of outputs of
    that shape. *)
Lemma body_handled_ready (raw : pyval) (s s' : io) (r : res pyval) :
  build_inventory_body raw s = (s', r) ->
  (forall msg, r <> Raise (AttributeError msg)) ->
  extraction_ready raw = true.
Proof.
  intros Hb Hr. destruct (extraction_ready raw) eqn:Hready; [reflexivity|].
  destruct (body_not_ready _ Hready) as [msg Hmsg].
  rewrite Hmsg in Hb. injection Hb as _ <-. now destruct (Hr msg).
Qed.

Lemma body_ok_ready (raw : pyval) (s s' : io) (doc : pyval) :
  build_inventory_body raw s = (s', Ok doc) ->
  exists d, raw = PDict d /\ extraction_ready (PDict d) = true.
Proof.
  intros Hb.
  assert (Hready : extraction_ready raw = true).
  { apply (body_handled_ready _ _ _ _ Hb). discriminate. }
  destruct (ready_is_dict _ Hready) as [d ->]. eauto.
Qed.

Section Properties.

Variable json_loads : pystr -> res pyval.
Variable signal_name : Z -> option pystr.
Variable float_repr : spec_float -> pystr.

(** [get_tofu_outputs] returns a value exactly when the command exits
    with status 0 and its output parses; it has then printed nothing. *)
Lemma get_tofu_outputs_ok (w : world) (s s1 : io) (raw : pyval) :
  get_tofu_outputs json_loads signal_name w s = (s1, Ok raw) <->
  s1 = after_tofu s
  /\ exists out err, w tofu_cmd = Exited 0 out err /\ json_loads out = Ok raw.
Proof.
  unfold get_tofu_outputs, try_except, bind, subprocess_run, lift,
    after_tofu.
  split.
  - destruct (w tofu_cmd) as [e|rc out err].
    + destruct e; cbn; intros H; discriminate H.
    + destruct (Z.eqb_spec rc 0) as [->|Hrc].
      * cbn [cp_stdout]. destruct (json_loads out) as [v|e] eqn:El.
        -- intros [= <- <-]. eauto.
        -- destruct e; cbn; intros H; discriminate H.
      * cbn. intros H; discriminate H.
  - intros (-> & out & err & -> & Hl). cbn. now rewrite Hl.
Qed.

Lemma build_inventory_after (w : world) (s s1 : io) (raw : pyval) :
  get_tofu_outputs json_loads signal_name w s = (s1, Ok raw) ->
  build_inventory json_loads signal_name w s = build_inventory_body raw s1.
Proof.
  intros H. unfold build_inventory, bind. now rewrite H.
Qed.

(** C1. When the parsed outputs are a mapping of objects in which
    [instance_public_ip] carries a non-empty string [ip] as its value,
    [build_inventory] returns a document whose [web_servers.hosts] is the
    one-element list [[ip]] and whose [_meta.hostvars] has the single key
    [ip]. *)
Theorem build_inventory_host_addressable_both_ways
        (w : world) (s s1 : io) (raw : pyval) (ip : pystr) :
  get_tofu_outputs json_loads signal_name w s = (s1, Ok raw) ->
  is_raw_state_output raw = true ->
  output_value raw (u "instance_public_ip") = Some (PStr ip) ->
  ip <> [] ->
  exists doc,
    build_inventory json_loads signal_name w s = (s1, Ok doc)
    /\ group_hosts doc = Some (PList [PStr ip])
    /\ hostvars_keys doc = Some [PStr ip].
Proof.
  intros Hget Hraw Hip Hne.
  destruct (raw_is_dict _ Hraw) as [d ->].
  rewrite (build_inventory_after _ _ _ _ Hget), (body_on_ready _ _ (raw_ready _ Hraw)), Hip.
  cbn zeta. destruct ip as [|c ip]; [contradiction|].
  cbn [truthy as_key]. eexists. split; [reflexivity|]. split; reflexivity.
Qed.

(** C2. When the parsed outputs are a mapping of objects in which
    [instance_public_ip] or its [value] key is missing, or the value is
    falsy (the empty string, say), [build_inventory] prints the
    missing-address line on the error stream and exits with status 1; a
    [--list] run then writes nothing to standard output and ends with
    exit status 1. *)
Theorem build_inventory_missing_public_ip
        (w : world) (prog : pystr) (s s1 : io) (raw : pyval) :
  get_tofu_outputs json_loads signal_name w s = (s1, Ok raw) ->
  is_raw_state_output raw = true ->
  (output_value raw (u "instance_public_ip") = None
   \/ exists v, output_value raw (u "instance_public_ip") = Some v
                /\ truthy v = false) ->
  build_inventory json_loads signal_name w s
  = (with_err_line s1 missing_ip_message, Raise (SystemExit 1))
  /\ (s = io0 ->
      run json_loads signal_name float_repr [prog; u "--list"] w
      = mkEnd [] (missing_ip_message ++ [newline]) [tofu_cmd] None 1).
Proof.
  intros Hget Hraw Hip.
  destruct (raw_is_dict _ Hraw) as [d ->].
  assert (Hb : build_inventory json_loads signal_name w s
               = (with_err_line s1 missing_ip_message, Raise (SystemExit 1))).
  { rewrite (build_inventory_after _ _ _ _ Hget), (body_on_ready _ _ (raw_ready _ Hraw)).
    cbn zeta. destruct Hip as [-> | (v & -> & Hv)].
    - reflexivity.
    - now rewrite Hv. }
  split; [exact Hb|]. intros ->.
  apply get_tofu_outputs_ok in Hget as [-> _].
  unfold run, main.
  replace ((List.length [prog; u "--list"] =? 2)%nat
           && pystr_eqb (nth 1 [prog; u "--list"] []) (u "--list"))
    with true by reflexivity.
  unfold bind at 1. rewrite Hb. reflexivity.
Qed.

(** A returned document is the one of the schema, for the address as key
    and for the user the outputs give, or the default one. *)
Lemma build_inventory_ok_document
      (w : world) (s s1 s' : io) (raw doc : pyval) :
  get_tofu_outputs json_loads signal_name w s = (s1, Ok raw) ->
  build_inventory json_loads signal_name w s = (s', Ok doc) ->
  exists key,
    doc = schema_document key
            (match output_value raw (u "ssh_user") with
             | Some v => v
             | None => PStr (u "ec2-user")
             end).
Proof.
  intros Hget Hb. rewrite (build_inventory_after _ _ _ _ Hget) in Hb.
  destruct (body_ok_ready _ _ _ _ Hb) as (d & -> & Hready).
  rewrite (body_on_ready _ _ Hready) in Hb. cbn zeta in Hb.
  destruct (truthy _) in Hb; [|discriminate].
  destruct (as_key _) as [key|] in Hb; [|discriminate].
  injection Hb as _ <-. now exists key.
Qed.

(** C3. Whenever [build_inventory] returns a document: if the outputs have
    no [ssh_user] value, both [ansible_user] fields of the document (the
    group's and the host's) are ["ec2-user"]; if they have one, both fields
    are that value. *)
Theorem ansible_user_default_or_given
        (w : world) (s s1 s' : io) (raw doc : pyval) :
  get_tofu_outputs json_loads signal_name w s = (s1, Ok raw) ->
  build_inventory json_loads signal_name w s = (s', Ok doc) ->
  (output_value raw (u "ssh_user") = None ->
   group_ansible_user doc = Some (PStr (u "ec2-user"))
   /\ host_ansible_users doc = [Some (PStr (u "ec2-user"))])
  /\ (forall v, output_value raw (u "ssh_user") = Some v ->
      group_ansible_user doc = Some v
      /\ host_ansible_users doc = [Some v]).
Proof.
  intros Hget Hb.
  destruct (build_inventory_ok_document _ _ _ _ _ _ Hget Hb) as [key ->].
  split.
  - intros ->. split; reflexivity.
  - intros v ->. split; reflexivity.
Qed.

(** C9. An [ssh_user] object whose [value] is JSON null is a present value:
    in the document [build_inventory] returns, both [ansible_user] fields
    are [None], not the default ["ec2-user"]. *)
Theorem ansible_user_null_is_kept
        (w : world) (s s1 s' : io) (d e : list (pykey * pyval)) (doc : pyval) :
  get_tofu_outputs json_loads signal_name w s = (s1, Ok (PDict d)) ->
  dict_lookup d (u "ssh_user") = Some (PDict e) ->
  dict_lookup e (u "value") = Some PNone ->
  build_inventory json_loads signal_name w s = (s', Ok doc) ->
  group_ansible_user doc = Some PNone
  /\ host_ansible_users doc = [Some PNone]
  /\ group_ansible_user doc <> Some (PStr (u "ec2-user")).
Proof.
  intros Hget He Hv Hb.
  assert (Hov : output_value (PDict d) (u "ssh_user") = Some PNone).
  { apply output_value_some. eauto. }
  destruct (build_inventory_ok_document _ _ _ _ _ _ Hget Hb) as [key ->].
  rewrite Hov. repeat split. discriminate.
Qed.

(** C10. On parsed outputs that are no mapping (a top-level array, say) or
    in which a consulted entry is no object (a string or an array), the
    field extraction of [build_inventory] raises an [AttributeError] before
    anything is printed; the [--list] run ends on that uncaught exception,
    with no diagnostic line of the script and nothing on standard output. *)
Theorem build_inventory_breaks_on_other_shapes
        (w : world) (prog : pystr) (s s1 : io) (raw : pyval) :
  get_tofu_outputs json_loads signal_name w s = (s1, Ok raw) ->
  extraction_ready raw = false ->
  exists msg,
    build_inventory json_loads signal_name w s = (s1, Raise (AttributeError msg))
    /\ (s = io0 ->
        run json_loads signal_name float_repr [prog; u "--list"] w
        = mkEnd [] [] [tofu_cmd] (Some (AttributeError msg)) 1).
Proof.
  intros Hget Hshape. destruct (body_not_ready _ Hshape) as [msg Hmsg].
  exists msg.
  assert (Hb : build_inventory json_loads signal_name w s
               = (s1, Raise (AttributeError msg))).
  { rewrite (build_inventory_after _ _ _ _ Hget). apply Hmsg. }
  split; [exact Hb|].
  intros ->. apply get_tofu_outputs_ok in Hget as [-> _].
  unfold run, main.
  replace ((List.length [prog; u "--list"] =? 2)%nat
           && pystr_eqb (nth 1 [prog; u "--list"] []) (u "--list"))
    with true by reflexivity.
  unfold bind at 1. rewrite Hb. reflexivity.
Qed.

(** An address that is truthy but cannot be a key (a non-empty array or
    object) passes the check and breaks the building of the document. *)
Lemma build_inventory_unhashable_address
      (w : world) (s s1 : io) (raw v : pyval) :
  get_tofu_outputs json_loads signal_name w s = (s1, Ok raw) ->
  is_raw_state_output raw = true ->
  output_value raw (u "instance_public_ip") = Some v ->
  truthy v = true ->
  as_key v = None ->
  build_inventory json_loads signal_name w s
  = (s1, Raise (TypeError (unhashable_type v))).
Proof.
  intros Hget Hraw Hv Ht Hk. destruct (raw_is_dict _ Hraw) as [d ->].
  rewrite (build_inventory_after _ _ _ _ Hget), (body_on_ready _ _ (raw_ready _ Hraw)), Hv.
  cbn zeta. now rewrite Ht, Hk.
Qed.

(** A returned document leaves the streams as the command start left
    them. *)
Lemma build_inventory_ok_io (w : world) (s s' : io) (doc : pyval) :
  build_inventory json_loads signal_name w s = (s', Ok doc) ->
  s' = after_tofu s.
Proof.
  unfold build_inventory, bind.
  destruct (get_tofu_outputs json_loads signal_name w s) as [s1 [raw|e]] eqn:Hget;
    [|discriminate].
  apply get_tofu_outputs_ok in Hget as [-> _].
  intros Hb. destruct (body_ok_ready _ _ _ _ Hb) as (d & -> & Hready).
  rewrite (body_on_ready _ _ Hready) in Hb. cbn zeta in Hb.
  destruct (truthy _) in Hb; [|discriminate].
  destruct (as_key _) in Hb; [|discriminate].
  now injection Hb as <- _.
Qed.

(** C4. A [--list] run in which [build_inventory] returns a document prints
    [json.dumps] of it with an indent of two, and a line end, on standard
    output and ends with exit status 0; for the two outputs of the demo
    (address 203.0.113.5, user ubuntu) the document is the one of the
    schema and the text is [Sample.inventory_text]. *)
Theorem list_prints_indented_inventory
        (w : world) (prog : pystr) (s1 : io) (raw : pyval) :
  get_tofu_outputs json_loads signal_name w io0 = (s1, Ok raw) ->
  (forall s' doc,
      build_inventory json_loads signal_name w io0 = (s', Ok doc) ->
      run json_loads signal_name float_repr [prog; u "--list"] w
      = mkEnd (json_dumps float_repr (Some 2%nat) doc ++ [newline]) []
              [tofu_cmd] None 0)
  /\ (raw = Sample.outputs ->
      build_inventory json_loads signal_name w io0
      = (s1, Ok (schema_document (KStr (u "203.0.113.5")) (PStr (u "ubuntu"))))
      /\ run json_loads signal_name float_repr [prog; u "--list"] w
         = mkEnd (Sample.inventory_text ++ [newline]) [] [tofu_cmd] None 0).
Proof.
  intros Hget.
  assert (Hrun : forall s' doc,
             build_inventory json_loads signal_name w io0 = (s', Ok doc) ->
             run json_loads signal_name float_repr [prog; u "--list"] w
             = mkEnd (json_dumps float_repr (Some 2%nat) doc ++ [newline]) []
                     [tofu_cmd] None 0).
  { intros s' doc Hb. pose proof (build_inventory_ok_io _ _ _ _ Hb) as ->.
    unfold run, main.
    replace ((List.length [prog; u "--list"] =? 2)%nat
             && pystr_eqb (nth 1 [prog; u "--list"] []) (u "--list"))
      with true by reflexivity.
    unfold bind at 1. rewrite Hb. reflexivity. }
  split; [exact Hrun|]. intros ->.
  assert (Hb : build_inventory json_loads signal_name w io0
               = (s1, Ok (schema_document (KStr (u "203.0.113.5"))
                                          (PStr (u "ubuntu"))))).
  { rewrite (build_inventory_after _ _ _ _ Hget). reflexivity. }
  split; [exact Hb|]. rewrite (Hrun _ _ Hb). reflexivity.
Qed.

(** C5. A run with the two arguments [--host name] prints the empty JSON
    object on standard output and ends with exit status 0, whatever the
    name and the world; it starts no command and writes no error text. *)
Theorem host_prints_empty_object (w : world) (prog name : pystr) :
  run json_loads signal_name float_repr [prog; u "--host"; name] w
  = mkEnd (u "{}" ++ [newline]) [] [] None 0.
Proof. reflexivity. Qed.

(** C6. A run whose arguments are neither the single [--list] nor [--host]
    with one name prints the usage line on the error stream, nothing on
    standard output, starts no command and ends with exit status 1. *)
Theorem other_arguments_print_usage (w : world) (prog : pystr) (args : list pystr) :
  args <> [u "--list"] ->
  (forall name, args <> [u "--host"; name]) ->
  run json_loads signal_name float_repr (prog :: args) w
  = mkEnd [] (usage ++ [newline]) [] None 1.
Proof.
  intros Hlist Hhost.
  destruct args as [|a [|b [|c rest]]].
  - reflexivity.
  - unfold run, main. cbn [List.length Nat.eqb nth andb].
    destruct (pystr_eqb a (u "--list")) eqn:Ea.
    + apply pystr_eqb_eq in Ea. now subst a.
    + reflexivity.
  - unfold run, main. cbn [List.length Nat.eqb nth andb].
    destruct (pystr_eqb a (u "--host")) eqn:Ea.
    + apply pystr_eqb_eq in Ea. subst a. now destruct (Hhost b).
    + reflexivity.
  - reflexivity.
Qed.

(** C7, as the script has it. When the command exits with a status other
    than 0, a [--list] run prints nothing on standard output, ends with
    exit status 1 and writes one line on the error stream: the prefix
    [Error running tofu output: ] and the description of the failed call,
    which names the command and its exit status (or signal). The line is
    the same whatever the command wrote on its own two streams. *)
Theorem command_failure_reports_exit_status
        (w : world) (prog : pystr) (rc : Z) (out err : pystr) :
  w tofu_cmd = Exited rc out err ->
  rc <> 0 ->
  run json_loads signal_name float_repr [prog; u "--list"] w
  = mkEnd []
          (u "Error running tofu output: "
           ++ exc_str signal_name (CalledProcessError rc tofu_cmd [] [])
           ++ [newline])
          [tofu_cmd] None 1
  /\ (0 < rc ->
      exc_str signal_name (CalledProcessError rc tofu_cmd [] [])
      = u "Command '['tofu', 'output', '-json']' returned non-zero exit status "
        ++ int_repr rc ++ u ".").
Proof.
  intros Hw Hrc. split.
  - unfold run, main.
    replace ((List.length [prog; u "--list"] =? 2)%nat
             && pystr_eqb (nth 1 [prog; u "--list"] []) (u "--list"))
      with true by reflexivity.
    unfold bind at 1, build_inventory, bind at 1, get_tofu_outputs, try_except,
      bind at 1, subprocess_run.
    rewrite Hw. apply Z.eqb_neq in Hrc. rewrite Hrc. reflexivity.
  - intros Hpos. unfold exc_str.
    destruct (Z.ltb_spec rc 0); [lia|]. reflexivity.
Qed.

End Properties.

(** * Runs of the sample worlds *)

Lemma build_inventory_host_addressable_both_ways_witness :
  let w := Sample.tofu_prints 0 Sample.outputs_text [] in
  get_tofu_outputs Sample.loads Sample.no_signal w io0
  = (after_tofu io0, Ok Sample.outputs)
  /\ is_raw_state_output Sample.outputs = true
  /\ output_value Sample.outputs (u "instance_public_ip")
     = Some (PStr (u "203.0.113.5"))
  /\ exists doc,
      build_inventory Sample.loads Sample.no_signal w io0
      = (after_tofu io0, Ok doc)
      /\ group_hosts doc = Some (PList [PStr (u "203.0.113.5")])
      /\ hostvars_keys doc = Some [PStr (u "203.0.113.5")].
Proof.
  intros w. do 3 (split; [reflexivity|]).
  apply (build_inventory_host_addressable_both_ways
           Sample.loads Sample.no_signal w io0 (after_tofu io0)
           Sample.outputs (u "203.0.113.5"));
    [reflexivity | reflexivity | reflexivity | discriminate].
Defined.

Lemma build_inventory_missing_public_ip_witness :
  let w := Sample.tofu_prints 0 Sample.empty_ip_text [] in
  get_tofu_outputs Sample.loads Sample.no_signal w io0
  = (after_tofu io0, Ok Sample.empty_ip)
  /\ output_value Sample.empty_ip (u "instance_public_ip") = Some (PStr [])
  /\ build_inventory Sample.loads Sample.no_signal w io0
     = (with_err_line (after_tofu io0) missing_ip_message, Raise (SystemExit 1))
  /\ run Sample.loads Sample.no_signal Sample.no_float Sample.argv_list w
     = mkEnd [] (missing_ip_message ++ [newline]) [tofu_cmd] None 1.
Proof.
  intros w. do 2 (split; [reflexivity|]).
  destruct (build_inventory_missing_public_ip
              Sample.loads Sample.no_signal Sample.no_float w
              (u "dynamic_inventory.py") io0 (after_tofu io0) Sample.empty_ip)
    as [Hb Hrun].
  - reflexivity.
  - reflexivity.
  - right. exists (PStr []). split; reflexivity.
  - split; [exact Hb | exact (Hrun eq_refl)].
Defined.

Lemma ansible_user_default_or_given_witness :
  let w := Sample.tofu_prints 0 Sample.no_user_text [] in
  let doc := schema_document (KStr (u "203.0.113.5")) (PStr (u "ec2-user")) in
  get_tofu_outputs Sample.loads Sample.no_signal w io0
  = (after_tofu io0, Ok Sample.no_user)
  /\ build_inventory Sample.loads Sample.no_signal w io0
     = (after_tofu io0, Ok doc)
  /\ output_value Sample.no_user (u "ssh_user") = None
  /\ group_ansible_user doc = Some (PStr (u "ec2-user"))
  /\ host_ansible_users doc = [Some (PStr (u "ec2-user"))].
Proof.
  intros w doc. do 3 (split; [reflexivity|]).
  destruct (ansible_user_default_or_given
              Sample.loads Sample.no_signal w io0 (after_tofu io0) (after_tofu io0)
              Sample.no_user doc)
    as [Habsent _].
  - reflexivity.
  - reflexivity.
  - exact (Habsent eq_refl).
Defined.

Lemma ansible_user_null_is_kept_witness :
  let w := Sample.tofu_prints 0 Sample.null_user_text [] in
  let doc := schema_document (KStr (u "203.0.113.5")) PNone in
  get_tofu_outputs Sample.loads Sample.no_signal w io0
  = (after_tofu io0, Ok (PDict Sample.null_user))
  /\ build_inventory Sample.loads Sample.no_signal w io0
     = (after_tofu io0, Ok doc)
  /\ group_ansible_user doc = Some PNone
  /\ host_ansible_users doc = [Some PNone]
  /\ group_ansible_user doc <> Some (PStr (u "ec2-user")).
Proof.
  intros w doc. do 2 (split; [reflexivity|]).
  apply (ansible_user_null_is_kept
           Sample.loads Sample.no_signal w io0 (after_tofu io0) (after_tofu io0)
           Sample.null_user [(KStr (u "value"), PNone)] doc);
    reflexivity.
Defined.

Lemma build_inventory_breaks_on_other_shapes_witness :
  let w := Sample.tofu_prints 0 (u "[]") [] in
  get_tofu_outputs Sample.loads Sample.no_signal w io0
  = (after_tofu io0, Ok (PList []))
  /\ extraction_ready (PList []) = false
  /\ exists msg,
      build_inventory Sample.loads Sample.no_signal w io0
      = (after_tofu io0, Raise (AttributeError msg))
      /\ run Sample.loads Sample.no_signal Sample.no_float Sample.argv_list w
         = mkEnd [] [] [tofu_cmd] (Some (AttributeError msg)) 1.
Proof.
  intros w. do 2 (split; [reflexivity|]).
  destruct (build_inventory_breaks_on_other_shapes
              Sample.loads Sample.no_signal Sample.no_float w
              (u "dynamic_inventory.py") io0 (after_tofu io0) (PList []))
    as (msg & Hb & Hrun).
  - reflexivity.
  - reflexivity.
  - exists msg. split; [exact Hb | exact (Hrun eq_refl)].
Defined.

Lemma list_prints_indented_inventory_witness :
  let w := Sample.tofu_prints 0 Sample.outputs_text [] in
  get_tofu_outputs Sample.loads Sample.no_signal w io0
  = (after_tofu io0, Ok Sample.outputs)
  /\ build_inventory Sample.loads Sample.no_signal w io0
     = (after_tofu io0,
        Ok (schema_document (KStr (u "203.0.113.5")) (PStr (u "ubuntu"))))
  /\ run Sample.loads Sample.no_signal Sample.no_float Sample.argv_list w
     = mkEnd (Sample.inventory_text ++ [newline]) [] [tofu_cmd] None 0.
Proof.
  intros w. split; [reflexivity|].
  destruct (list_prints_indented_inventory
              Sample.loads Sample.no_signal Sample.no_float w
              (u "dynamic_inventory.py") (after_tofu io0) Sample.outputs)
    as [_ Hdemo].
  - reflexivity.
  - exact (Hdemo eq_refl).
Defined.

Lemma other_arguments_print_usage_witness :
  let w := Sample.tofu_prints 0 Sample.outputs_text [] in
  run Sample.loads Sample.no_signal Sample.no_float
      [u "dynamic_inventory.py"; u "--list"; u "--yaml"] w
  = mkEnd [] (usage ++ [newline]) [] None 1.
Proof.
  intros w.
  apply (other_arguments_print_usage
           Sample.loads Sample.no_signal Sample.no_float w
           (u "dynamic_inventory.py") [u "--list"; u "--yaml"]).
  - discriminate.
  - intros name. discriminate.
Defined.

Lemma command_failure_reports_exit_status_witness :
  let w := Sample.tofu_prints 1 [] Sample.tofu_complaint in
  w tofu_cmd = Exited 1 [] Sample.tofu_complaint
  /\ run Sample.loads Sample.no_signal Sample.no_float Sample.argv_list w
     = mkEnd []
         (u "Error running tofu output: "
          ++ exc_str Sample.no_signal (CalledProcessError 1 tofu_cmd [] [])
          ++ [newline])
         [tofu_cmd] None 1
  /\ (0 < 1 ->
      exc_str Sample.no_signal (CalledProcessError 1 tofu_cmd [] [])
      = u "Command '['tofu', 'output', '-json']' returned non-zero exit status "
        ++ int_repr 1 ++ u ".").
Proof.
  intros w. split; [reflexivity|].
  apply (command_failure_reports_exit_status
           Sample.loads Sample.no_signal Sample.no_float w
           (u "dynamic_inventory.py") 1 [] Sample.tofu_complaint).
  - reflexivity.
  - discriminate.
Defined.

(** The command fails with a complaint on its error stream: the line the
    script prints names the command and the status, and the complaint of
    the command is nowhere in it. *)
Lemma command_error_text_not_surfaced :
  let w := Sample.tofu_prints 1 [] Sample.tofu_complaint in
  let r := run Sample.loads Sample.no_signal Sample.no_float Sample.argv_list w in
  w tofu_cmd = Exited 1 [] Sample.tofu_complaint
  /\ exit_status r = 1
  /\ written_err r
     = u "Error running tofu output: Command '['tofu', 'output', '-json']' returned non-zero exit status 1."
       ++ [newline]
  /\ ~ is_infix Sample.tofu_complaint (written_err r) = true.
Proof.
  intros w r. repeat (split; [reflexivity|]).
  vm_compute. discriminate.
Qed.

(** Further shapes of the outputs. *)

Example string_entry_breaks :
  run Sample.loads Sample.no_signal Sample.no_float Sample.argv_list
      (Sample.tofu_prints 0 Sample.string_entry_text [])
  = mkEnd [] [] [tofu_cmd]
          (Some (AttributeError (u "'str' object has no attribute 'get'"))) 1.
Proof. reflexivity. Qed.

Example array_entry_breaks :
  run Sample.loads Sample.no_signal Sample.no_float Sample.argv_list
      (Sample.tofu_prints 0 Sample.array_entry_text [])
  = mkEnd [] [] [tofu_cmd]
          (Some (AttributeError (u "'list' object has no attribute 'get'"))) 1.
Proof. reflexivity. Qed.

Example array_address_breaks :
  run Sample.loads Sample.no_signal Sample.no_float Sample.argv_list
      (Sample.tofu_prints 0 Sample.array_address_text [])
  = mkEnd [] [] [tofu_cmd] (Some (TypeError (u "unhashable type: 'list'"))) 1.
Proof. reflexivity. Qed.

Example no_outputs_exit :
  run Sample.loads Sample.no_signal Sample.no_float Sample.argv_list
      (Sample.tofu_prints 0 (u "{}") [])
  = mkEnd [] (missing_ip_message ++ [newline]) [tofu_cmd] None 1.
Proof. reflexivity. Qed.

Example unparsable_output_exit :
  run Sample.loads Sample.no_signal Sample.no_float Sample.argv_list
      (Sample.tofu_prints 0 (u "not json") [])
  = mkEnd []
          (u "Error parsing tofu output: Expecting value: line 1 column 1 (char 0)"
           ++ [newline])
          [tofu_cmd] None 1.
Proof. reflexivity. Qed.

Example missing_binary_exit :
  run Sample.loads Sample.no_signal Sample.no_float Sample.argv_list
      (fun _ => StartRaises (FileNotFoundError (u "[Errno 2] No such file or directory: 'tofu'")))
  = mkEnd []
          (u "Error: 'tofu' command not found. Please ensure OpenTofu is installed."
           ++ [newline])
          [tofu_cmd] None 1.
Proof. reflexivity. Qed.

(** * The rest of the script: the other failures of the state reader, what a
      run writes and starts, and the shape of the document *)

Section Coverage.

Variable json_loads : pystr -> res pyval.
Variable signal_name : Z -> option pystr.
Variable float_repr : spec_float -> pystr.

(** A [--list] run, read off the end of [build_inventory]. *)
Lemma run_list (w : world) (prog : pystr) :
  run json_loads signal_name float_repr [prog; u "--list"] w
  = match build_inventory json_loads signal_name w io0 with
    | (s, Ok doc) =>
        mkEnd (stdout s ++ json_dumps float_repr (Some 2%nat) doc ++ [newline])
              (stderr s) (commands s) None 0
    | (s, Raise (SystemExit code)) =>
        mkEnd (stdout s) (stderr s) (commands s) None code
    | (s, Raise e) => mkEnd (stdout s) (stderr s) (commands s) (Some e) 1
    end.
Proof.
  unfold run, main.
  replace ((List.length [prog; u "--list"] =? 2)%nat
           && pystr_eqb (nth 1 [prog; u "--list"] []) (u "--list"))
    with true by reflexivity.
  unfold bind at 1.
  destruct (build_inventory json_loads signal_name w io0) as [s [doc|e]];
    [reflexivity|]. destruct e; reflexivity.
Qed.

(** [get_tofu_outputs] starts the one command and writes, if anything, on
    the error stream only. *)
Lemma get_tofu_outputs_streams (w : world) (s : io) :
  exists extra,
    fst (get_tofu_outputs json_loads signal_name w s)
    = mkIO (stdout s) (stderr s ++ extra) (commands s ++ [tofu_cmd]).
Proof.
  unfold get_tofu_outputs, try_except, bind, subprocess_run, lift.
  destruct (w tofu_cmd) as [e|rc out err].
  - destruct e; cbn;
      try (exists []; rewrite app_nil_r; reflexivity); eexists; reflexivity.
  - destruct (rc =? 0).
    + cbn [cp_stdout]. destruct (json_loads out) as [v|e].
      * exists []. cbn. now rewrite app_nil_r.
      * destruct e; cbn;
          try (exists []; rewrite app_nil_r; reflexivity); eexists; reflexivity.
    + cbn. eexists; reflexivity.
Qed.

Lemma build_inventory_streams (w : world) (s : io) :
  exists extra,
    fst (build_inventory json_loads signal_name w s)
    = mkIO (stdout s) (stderr s ++ extra) (commands s ++ [tofu_cmd]).
Proof.
  destruct (get_tofu_outputs_streams w s) as [extra Hg].
  unfold build_inventory, bind.
  destruct (get_tofu_outputs json_loads signal_name w s) as [s1 [raw|e]].
  - cbn in Hg. subst s1. destruct (body_frame raw) as (extra' & r & Hf).
    rewrite Hf. cbn. exists (extra ++ extra'). now rewrite app_assoc.
  - exists extra. exact Hg.
Qed.

(** What [get_tofu_outputs] does when the start of the command or the
    parsing raises [e]. *)
Lemma get_tofu_outputs_raised (w : world) (s : io) (e : exc) :
  (w tofu_cmd = StartRaises e
   \/ exists out err, w tofu_cmd = Exited 0 out err /\ json_loads out = Raise e) ->
  get_tofu_outputs json_loads signal_name w s
  = match e with
    | CalledProcessError _ _ _ _ =>
        (with_err_line (after_tofu s)
           (u "Error running tofu output: " ++ exc_str signal_name e),
         Raise (SystemExit 1))
    | JSONDecodeError msg =>
        (with_err_line (after_tofu s) (u "Error parsing tofu output: " ++ msg),
         Raise (SystemExit 1))
    | FileNotFoundError _ =>
        (with_err_line (after_tofu s)
           (u "Error: 'tofu' command not found. Please ensure OpenTofu is installed."),
         Raise (SystemExit 1))
    | _ => (after_tofu s, Raise e)
    end.
Proof.
  unfold get_tofu_outputs, try_except, bind, subprocess_run, lift.
  intros [-> | (out & err & -> & Hl)].
  - destruct e; reflexivity.
  - cbn. rewrite Hl. destruct e; reflexivity.
Qed.

(** X1. When the command exits with status 0 but [json.loads] rejects its
    output, a [--list] run prints one line on the error stream, the prefix
    [Error parsing tofu output: ] and the parser's message, nothing on
    standard output, and ends with exit status 1. *)
Theorem unparsable_output_is_reported
        (w : world) (prog out err msg : pystr) :
  w tofu_cmd = Exited 0 out err ->
  json_loads out = Raise (JSONDecodeError msg) ->
  run json_loads signal_name float_repr [prog; u "--list"] w
  = mkEnd [] (u "Error parsing tofu output: " ++ msg ++ [newline])
          [tofu_cmd] None 1.
Proof.
  intros Hw Hl. rewrite run_list. unfold build_inventory, bind.
  rewrite (get_tofu_outputs_raised w io0 (JSONDecodeError msg)) by eauto.
  reflexivity.
Qed.

(** X2. When the command cannot be started because the binary is not
    found, a [--list] run prints the fixed line that asks for OpenTofu to be
    installed on the error stream, whatever the message of the exception,
    nothing on standard output, and ends with exit status 1. *)
Theorem missing_binary_is_reported (w : world) (prog msg : pystr) :
  w tofu_cmd = StartRaises (FileNotFoundError msg) ->
  run json_loads signal_name float_repr [prog; u "--list"] w
  = mkEnd []
          (u "Error: 'tofu' command not found. Please ensure OpenTofu is installed."
           ++ [newline])
          [tofu_cmd] None 1.
Proof.
  intros Hw. rewrite run_list. unfold build_inventory, bind.
  rewrite (get_tofu_outputs_raised w io0 (FileNotFoundError msg)) by eauto.
  reflexivity.
Qed.

(** X3. An exception of the command start or of [json.loads] that is none
    of the three the script catches passes through [get_tofu_outputs] and
    [build_inventory] as it is: no line is printed, and a [--list] run has
    written nothing on either stream when that exception, unless it is a
    [SystemExit], ends it uncaught. *)
Theorem other_exceptions_pass_through
        (w : world) (prog : pystr) (s : io) (e : exc) :
  (w tofu_cmd = StartRaises e
   \/ exists out err, w tofu_cmd = Exited 0 out err /\ json_loads out = Raise e) ->
  handled e = false ->
  get_tofu_outputs json_loads signal_name w s = (after_tofu s, Raise e)
  /\ build_inventory json_loads signal_name w s = (after_tofu s, Raise e)
  /\ (let r := run json_loads signal_name float_repr [prog; u "--list"] w in
      written_out r = [] /\ written_err r = [] /\ started r = [tofu_cmd]
      /\ ((forall code, e <> SystemExit code) -> uncaught r = Some e)).
Proof.
  intros Hw Hh.
  assert (Hg : forall s0, get_tofu_outputs json_loads signal_name w s0
                          = (after_tofu s0, Raise e)).
  { intros s0. rewrite (get_tofu_outputs_raised w s0 e Hw).
    destruct e; try discriminate; reflexivity. }
  assert (Hb : forall s0, build_inventory json_loads signal_name w s0
                          = (after_tofu s0, Raise e)).
  { intros s0. unfold build_inventory, bind. now rewrite Hg. }
  split; [apply Hg|]. split; [apply Hb|].
  cbn zeta. rewrite run_list, Hb.
  destruct e as [code| | | | | |]; try discriminate;
    (split; [reflexivity|]); (split; [reflexivity|]); (split; [reflexivity|]);
    intros Hc; try reflexivity.
  now destruct (Hc code).
Qed.

(** A run, read off the three branches of [main]. *)
Lemma run_cases (argv : list pystr) (w : world) :
  run json_loads signal_name float_repr argv w
  = if (List.length argv =? 2)%nat && pystr_eqb (nth 1 argv []) (u "--list")
    then
      match build_inventory json_loads signal_name w io0 with
      | (s, Ok doc) =>
          mkEnd (stdout s ++ json_dumps float_repr (Some 2%nat) doc ++ [newline])
                (stderr s) (commands s) None 0
      | (s, Raise (SystemExit code)) =>
          mkEnd (stdout s) (stderr s) (commands s) None code
      | (s, Raise e) => mkEnd (stdout s) (stderr s) (commands s) (Some e) 1
      end
    else if (List.length argv =? 3)%nat && pystr_eqb (nth 1 argv []) (u "--host")
    then mkEnd (u "{}" ++ [newline]) [] [] None 0
    else mkEnd [] (usage ++ [newline]) [] None 1.
Proof.
  unfold run, main.
  destruct ((List.length argv =? 2)%nat && pystr_eqb (nth 1 argv []) (u "--list")).
  - unfold bind at 1.
    destruct (build_inventory json_loads signal_name w io0) as [s [doc|e]];
      [reflexivity|]. destruct e; reflexivity.
  - destruct ((List.length argv =? 3)%nat
              && pystr_eqb (nth 1 argv []) (u "--host")); reflexivity.
Qed.

(** The first branch of [main] is taken for [--list] alone. *)
Lemma list_call_iff (argv : list pystr) :
  (List.length argv =? 2)%nat && pystr_eqb (nth 1 argv []) (u "--list") = true
  <-> exists prog, argv = [prog; u "--list"].
Proof.
  split.
  - destruct argv as [|p [|a [|b rest]]]; try discriminate.
    cbn [List.length Nat.eqb nth andb]. intros Ha.
    apply pystr_eqb_eq in Ha. subst a. now exists p.
  - intros [prog ->]. reflexivity.
Qed.

(** X4. Whatever the arguments and the world, a run that has written
    anything on standard output ends with exit status 0, without an
    uncaught exception, and has written nothing on the error stream: output
    is the last thing a run does. *)
Theorem output_only_on_success (argv : list pystr) (w : world) :
  written_out (run json_loads signal_name float_repr argv w) <> [] ->
  exit_status (run json_loads signal_name float_repr argv w) = 0
  /\ uncaught (run json_loads signal_name float_repr argv w) = None
  /\ written_err (run json_loads signal_name float_repr argv w) = [].
Proof.
  rewrite run_cases.
  destruct ((List.length argv =? 2)%nat && pystr_eqb (nth 1 argv []) (u "--list")).
  - destruct (build_inventory_streams w io0) as [extra Hs].
    destruct (build_inventory json_loads signal_name w io0) as [s [doc|e]] eqn:Hb.
    + apply build_inventory_ok_io in Hb. subst s. intros _. repeat split.
    + cbn in Hs. subst s. destruct e; cbn; intros H; now destruct H.
  - destruct ((List.length argv =? 3)%nat
              && pystr_eqb (nth 1 argv []) (u "--host")); cbn; intros H.
    + repeat split.
    + now destruct H.
Qed.

(** X5. A run starts a command only when its arguments are [--list] alone,
    and then it starts [tofu output -json], once, however the run ends; any
    other run starts none. *)
Theorem at_most_one_command (argv : list pystr) (w : world) :
  ((exists prog, argv = [prog; u "--list"])
   /\ started (run json_loads signal_name float_repr argv w) = [tofu_cmd])
  \/ ((forall prog, argv <> [prog; u "--list"])
      /\ started (run json_loads signal_name float_repr argv w) = []).
Proof.
  rewrite run_cases.
  destruct ((List.length argv =? 2)%nat && pystr_eqb (nth 1 argv []) (u "--list"))
    eqn:Hc.
  - left. split; [now apply list_call_iff|].
    destruct (build_inventory_streams w io0) as [extra Hs].
    destruct (build_inventory json_loads signal_name w io0) as [s [doc|e]];
      cbn in Hs; subst s; [reflexivity|]. destruct e; reflexivity.
  - right. split.
    + intros prog Hp.
      assert (Ht : (List.length argv =? 2)%nat
                   && pystr_eqb (nth 1 argv []) (u "--list") = true)
        by (apply list_call_iff; eauto).
      congruence.
    + destruct ((List.length argv =? 3)%nat
                && pystr_eqb (nth 1 argv []) (u "--host")); reflexivity.
Qed.

Lemma as_key_value (v : pyval) (key : pykey) :
  as_key v = Some key -> key_value key = v.
Proof. destruct v; intros [= <-]; reflexivity. Qed.

(** X6. A [--list] run prints an inventory exactly when the command exits
    with status 0, its output parses to a mapping whose two consulted
    entries (where present) are objects, and the value of
    [instance_public_ip] is there, truthy and hashable. *)
Theorem list_prints_exactly_when (w : world) (prog : pystr) :
  written_out (run json_loads signal_name float_repr [prog; u "--list"] w) <> []
  <-> exists out err raw v key,
        w tofu_cmd = Exited 0 out err
        /\ json_loads out = Ok raw
        /\ extraction_ready raw = true
        /\ output_value raw (u "instance_public_ip") = Some v
        /\ truthy v = true
        /\ as_key v = Some key.
Proof.
  rewrite run_list. split.
  - destruct (build_inventory_streams w io0) as [extra Hs].
    destruct (build_inventory json_loads signal_name w io0) as [s [doc|e]] eqn:Hb.
    + intros _. unfold build_inventory, bind in Hb.
      destruct (get_tofu_outputs json_loads signal_name w io0)
        as [s1 [raw|e]] eqn:Hg; [|discriminate].
      apply get_tofu_outputs_ok in Hg as (-> & out & err & Hw & Hl).
      destruct (body_ok_ready _ _ _ _ Hb) as (d & -> & Hready).
      rewrite (body_on_ready _ _ Hready) in Hb. cbn zeta in Hb.
      destruct (output_value (PDict d) (u "instance_public_ip")) as [v|] eqn:Hv;
        [|discriminate].
      destruct (truthy v) eqn:Ht; [|discriminate].
      destruct (as_key v) as [key|] eqn:Hk; [|discriminate].
      exists out, err, (PDict d), v, key. repeat split; assumption.
    + cbn in Hs. subst s. destruct e; cbn; intros H; now destruct H.
  - intros (out & err & raw & v & key & Hw & Hl & Hready & Hv & Ht & Hk).
    assert (Hg : get_tofu_outputs json_loads signal_name w io0
                 = (after_tofu io0, Ok raw)).
    { apply get_tofu_outputs_ok. eauto. }
    rewrite (build_inventory_after _ _ _ _ _ _ Hg).
    destruct (ready_is_dict _ Hready) as [d ->].
    rewrite (body_on_ready _ _ Hready), Hv. cbn zeta. rewrite Ht, Hk.
    cbn. discriminate.
Qed.

(** X7. Of parsed outputs that are mappings whose two consulted entries,
    where present, are objects, only the two values the script reads matter:
    two runs of [build_inventory] whose outputs agree on the value of
    [instance_public_ip] and on the value of [ssh_user] end alike, whatever
    other outputs, other keys of the two entries or order of entries the two
    mappings have. *)
Theorem only_two_values_matter
        (w1 w2 : world) (s t1 t2 : io) (raw1 raw2 : pyval) :
  get_tofu_outputs json_loads signal_name w1 s = (t1, Ok raw1) ->
  get_tofu_outputs json_loads signal_name w2 s = (t2, Ok raw2) ->
  extraction_ready raw1 = true ->
  extraction_ready raw2 = true ->
  output_value raw1 (u "instance_public_ip")
  = output_value raw2 (u "instance_public_ip") ->
  output_value raw1 (u "ssh_user") = output_value raw2 (u "ssh_user") ->
  build_inventory json_loads signal_name w1 s
  = build_inventory json_loads signal_name w2 s.
Proof.
  intros H1 H2 Hr1 Hr2 Hip Hssh.
  rewrite (build_inventory_after _ _ _ _ _ _ H1),
    (build_inventory_after _ _ _ _ _ _ H2).
  apply get_tofu_outputs_ok in H1 as [-> _].
  apply get_tofu_outputs_ok in H2 as [-> _].
  destruct (ready_is_dict _ Hr1) as [d1 ->].
  destruct (ready_is_dict _ Hr2) as [d2 ->].
  rewrite (body_on_ready _ _ Hr1), (body_on_ready _ _ Hr2).
  cbn zeta. now rewrite Hip, Hssh.
Qed.

(** X8. Every document [build_inventory] returns is about the value [v] of
    [instance_public_ip], which is there and truthy: the host list is [[v]],
    the one key of the per-host block is [v], the [ansible_host] under it is
    [v], the key file of the group is [./demo-key], and the document has
    the two keys [web_servers] and [_meta], in that order. *)
Theorem returned_document_fields
        (w : world) (s s1 s' : io) (raw doc : pyval) :
  get_tofu_outputs json_loads signal_name w s = (s1, Ok raw) ->
  build_inventory json_loads signal_name w s = (s', Ok doc) ->
  exists v,
    output_value raw (u "instance_public_ip") = Some v
    /\ truthy v = true
    /\ group_hosts doc = Some (PList [v])
    /\ hostvars_keys doc = Some [v]
    /\ host_ansible_hosts doc = [Some v]
    /\ group_key_file doc = Some (PStr (u "./demo-key"))
    /\ top_level_keys doc = [PStr (u "web_servers"); PStr (u "_meta")].
Proof.
  intros Hget Hb. rewrite (build_inventory_after _ _ _ _ _ _ Hget) in Hb.
  destruct (body_ok_ready _ _ _ _ Hb) as (d & -> & Hready).
  rewrite (body_on_ready _ _ Hready) in Hb. cbn zeta in Hb.
  destruct (output_value (PDict d) (u "instance_public_ip")) as [v|] eqn:Hv;
    [|discriminate].
  destruct (truthy v) eqn:Ht; [|discriminate].
  destruct (as_key v) as [key|] eqn:Hk; [|discriminate].
  injection Hb as _ <-. apply as_key_value in Hk. subst v.
  exists (key_value key). repeat split; assumption.
Qed.

(** The text of the document for a string address and a string user. *)
Lemma dumps_schema_of_strings (ip user : pystr) :
  json_dumps float_repr (Some 2%nat) (schema_document (KStr ip) (PStr user))
  = inventory_lines (encode_basestring_ascii ip) (encode_basestring_ascii user).
Proof.
  unfold json_dumps, schema_document, inventory_lines, key_value.
  cbn [iterencode key_text].
  generalize (encode_basestring_ascii ip) (encode_basestring_ascii user).
  intros tip tuser. cbn.
  repeat (progress (repeat rewrite <- app_assoc; cbn [app])).
  reflexivity.
Qed.

(** X9. When the outputs give a non-empty string as the address and a
    string as the user (or no user, which stands for [ec2-user]), a
    [--list] run prints the nineteen lines of [inventory_lines] with the two
    strings quoted and escaped as JSON, each host of the host list on a line
    of its own, ends the output with a line end and exits with status 0. *)
Theorem list_prints_lines_for_strings
        (w : world) (prog out err : pystr) (raw : pyval) (ip user : pystr) :
  w tofu_cmd = Exited 0 out err ->
  json_loads out = Ok raw ->
  extraction_ready raw = true ->
  output_value raw (u "instance_public_ip") = Some (PStr ip) ->
  ip <> [] ->
  (output_value raw (u "ssh_user") = Some (PStr user)
   \/ (output_value raw (u "ssh_user") = None /\ user = u "ec2-user")) ->
  run json_loads signal_name float_repr [prog; u "--list"] w
  = mkEnd (inventory_lines (encode_basestring_ascii ip)
                           (encode_basestring_ascii user) ++ [newline])
          [] [tofu_cmd] None 0.
Proof.
  intros Hw Hl Hready Hip Hne Huser.
  assert (Hg : get_tofu_outputs json_loads signal_name w io0
               = (after_tofu io0, Ok raw)).
  { apply get_tofu_outputs_ok. eauto. }
  rewrite run_list, (build_inventory_after _ _ _ _ _ _ Hg).
  destruct (ready_is_dict _ Hready) as [d ->].
  rewrite (body_on_ready _ _ Hready), Hip. cbn zeta.
  destruct ip as [|c ip]; [contradiction|]. cbn [truthy as_key].
  assert (Hu : match output_value (PDict d) (u "ssh_user") with
               | Some v => v
               | None => PStr (u "ec2-user")
               end = PStr user).
  { destruct Huser as [-> | [-> ->]]; reflexivity. }
  rewrite Hu, dumps_schema_of_strings. reflexivity.
Qed.

Lemma is_ascii_app (a b : pystr) :
  is_ascii (a ++ b) = is_ascii a && is_ascii b.
Proof. apply forallb_app. Qed.

Lemma hex_digit_ascii (d : N) : (d < 16)%N -> (hex_digit d <? 128)%N = true.
Proof.
  intros Hd. unfold hex_digit. apply N.ltb_lt.
  destruct (d <? 10)%N; lia.
Qed.

Lemma hex4_ascii (n : N) : is_ascii (hex4 n) = true.
Proof.
  unfold hex4, is_ascii. cbn [forallb].
  rewrite !hex_digit_ascii by (apply N.mod_lt; discriminate). reflexivity.
Qed.

Lemma escape_ascii_ascii (c : N) : is_ascii (escape_ascii c) = true.
Proof.
  unfold escape_ascii.
  repeat match goal with
         | |- context [if (c =? ?k)%N then _ else _] =>
             destruct (c =? k)%N; [reflexivity|]
         end.
  destruct ((32 <=? c)%N && (c <=? 126)%N) eqn:Hp.
  - apply andb_true_iff in Hp as [_ Hle]. apply N.leb_le in Hle.
    cbn. rewrite andb_true_r. apply N.ltb_lt. lia.
  - destruct (c <? 65536)%N.
    + change (is_ascii (u "\u" ++ hex4 c) = true).
      now rewrite is_ascii_app, hex4_ascii.
    + cbv zeta.
      match goal with
      | |- is_ascii ((_ :: _ ++ hex4 ?a) ++ _ :: _ ++ hex4 ?b) = true =>
          change (is_ascii ((u "\u" ++ hex4 a) ++ (u "\u" ++ hex4 b)) = true)
      end.
      now rewrite !is_ascii_app, !hex4_ascii.
Qed.

Lemma encode_basestring_ascii_ascii (s : pystr) :
  is_ascii (encode_basestring_ascii s) = true.
Proof.
  unfold encode_basestring_ascii. rewrite !is_ascii_app.
  replace (is_ascii (flat_map escape_ascii s)) with true; [reflexivity|].
  induction s as [|c s IH]; [reflexivity|].
  cbn [flat_map]. now rewrite is_ascii_app, escape_ascii_ascii, <- IH.
Qed.

Lemma uint_digits_ascii (d : Decimal.uint) : is_ascii (uint_digits d) = true.
Proof. induction d; cbn; auto. Qed.

Lemma int_repr_ascii (z : Z) : is_ascii (int_repr z) = true.
Proof. unfold int_repr. destruct (Z.to_int z); cbn; apply uint_digits_ascii. Qed.

Lemma spaces_ascii (n : nat) : is_ascii (spaces n) = true.
Proof. induction n; cbn; auto. Qed.

Section Ascii.

Hypothesis float_repr_ascii : forall f, is_ascii (float_repr f) = true.

Section AnyIndent.

Variable indent : option nat.

Lemma floatstr_ascii (f : spec_float) : is_ascii (floatstr float_repr f) = true.
Proof. destruct f as [sg|[|]| |sg m e]; cbn [floatstr]; auto. Qed.

Lemma newline_indent_ascii (level : nat) :
  is_ascii (newline_indent indent level) = true.
Proof.
  unfold newline_indent. destruct indent; [|reflexivity].
  cbn. apply spaces_ascii.
Qed.

Lemma item_separator_ascii : is_ascii (item_separator indent) = true.
Proof. unfold item_separator. destruct indent; reflexivity. Qed.

(** [json.dumps] escapes everything outside ASCII. *)
Lemma iterencode_ascii (o : pyval) :
  forall level, is_ascii (iterencode float_repr indent level o) = true.
Proof.
  revert o. fix IH 1. intros o level.
  destruct o as [|[|]|z|f|s|l|d]; cbn [iterencode]; try reflexivity.
  - apply int_repr_ascii.
  - apply floatstr_ascii.
  - apply encode_basestring_ascii_ascii.
  - destruct l as [|x r]; [reflexivity|]. cbv beta match.
    rewrite !is_ascii_app, !newline_indent_ascii.
    match goal with
    | |- context [is_ascii (?items false r)] =>
        assert (Hitems : forall lst first, is_ascii (items first lst) = true)
    end.
    { induction lst as [|value rest IHl]; intros first; [reflexivity|].
      rewrite !is_ascii_app, IH, IHl, andb_true_r.
      destruct first; [reflexivity|].
      now rewrite is_ascii_app, item_separator_ascii, newline_indent_ascii. }
    rewrite Hitems, IH. reflexivity.
  - destruct d as [|[key0 value0] r]; [reflexivity|]. cbv beta match.
    rewrite !is_ascii_app, !newline_indent_ascii.
    match goal with
    | |- context [is_ascii (?items false r)] =>
        assert (Hitems : forall lst first, is_ascii (items first lst) = true)
    end.
    { induction lst as [|[key value] rest IHl]; intros first; [reflexivity|].
      rewrite !is_ascii_app, IH, IHl, encode_basestring_ascii_ascii, !andb_true_r.
      destruct first; [reflexivity|].
      now rewrite is_ascii_app, item_separator_ascii, newline_indent_ascii. }
    rewrite Hitems, IH, encode_basestring_ascii_ascii. reflexivity.
Qed.

End AnyIndent.

(** X10. Whatever the arguments, the world and the outputs, a run writes
    ASCII characters only on standard output: characters outside ASCII in an
    address or a user name are printed as [\u] escapes. The one assumption
    is that the interpreter prints a float in ASCII. *)
Theorem output_is_ascii (argv : list pystr) (w : world) :
  is_ascii (written_out (run json_loads signal_name float_repr argv w)) = true.
Proof.
  rewrite run_cases.
  destruct ((List.length argv =? 2)%nat && pystr_eqb (nth 1 argv []) (u "--list")).
  - destruct (build_inventory_streams w io0) as [extra Hs].
    destruct (build_inventory json_loads signal_name w io0) as [s [doc|e]] eqn:Hb.
    + cbn in Hs. subst s. cbn [written_out stdout io0 app].
      unfold json_dumps. now rewrite is_ascii_app, iterencode_ascii.
    + cbn in Hs. subst s. destruct e; reflexivity.
  - destruct ((List.length argv =? 3)%nat
              && pystr_eqb (nth 1 argv []) (u "--host")); reflexivity.
Qed.

End Ascii.

(** X11. Once [subprocess.run] has decoded both streams of the command, the
    text of its error stream is never used: two worlds in which the command
    ends with the same status and the same standard output text, and with
    whatever two error texts, give the same run, whatever the arguments. *)
Theorem command_error_stream_is_discarded
        (argv : list pystr) (w1 w2 : world) (rc : Z) (out err1 err2 : pystr) :
  w1 tofu_cmd = Exited rc out err1 ->
  w2 tofu_cmd = Exited rc out err2 ->
  run json_loads signal_name float_repr argv w1
  = run json_loads signal_name float_repr argv w2.
Proof.
  intros H1 H2.
  assert (Hg : forall s, get_tofu_outputs json_loads signal_name w1 s
                         = get_tofu_outputs json_loads signal_name w2 s).
  { intros s. unfold get_tofu_outputs, try_except, bind, subprocess_run, lift.
    rewrite H1, H2. destruct (rc =? 0); reflexivity. }
  rewrite !run_cases. unfold build_inventory, bind. now rewrite Hg.
Qed.

(** X12. An address that is truthy but cannot be a key of a [dict] (a
    non-empty array or object) passes the emptiness check and then breaks
    the building of the document: the [--list] run ends on an uncaught
    [TypeError], with nothing written on either stream. *)
Theorem unhashable_address_breaks_run
        (w : world) (prog out err : pystr) (raw v : pyval) :
  w tofu_cmd = Exited 0 out err ->
  json_loads out = Ok raw ->
  extraction_ready raw = true ->
  output_value raw (u "instance_public_ip") = Some v ->
  truthy v = true ->
  as_key v = None ->
  run json_loads signal_name float_repr [prog; u "--list"] w
  = mkEnd [] [] [tofu_cmd] (Some (TypeError (unhashable_type v))) 1.
Proof.
  intros Hw Hl Hready Hv Ht Hk.
  assert (Hg : get_tofu_outputs json_loads signal_name w io0
               = (after_tofu io0, Ok raw)).
  { apply get_tofu_outputs_ok. eauto. }
  rewrite run_list, (build_inventory_after _ _ _ _ _ _ Hg).
  destruct (ready_is_dict _ Hready) as [d ->].
  rewrite (body_on_ready _ _ Hready), Hv. cbn zeta. rewrite Ht, Hk.
  reflexivity.
Qed.

(** What [build_inventory] raises when the start of the command and
    [json.loads] raise nothing but what the script catches: the exit with
    status 1, or the [AttributeError] or [TypeError] of its own body. *)
Lemma build_inventory_raises (w : world) (s s' : io) (e : exc) :
  (forall e0, w tofu_cmd = StartRaises e0 -> handled e0 = true) ->
  (forall text e0, json_loads text = Raise e0 -> handled e0 = true) ->
  build_inventory json_loads signal_name w s = (s', Raise e) ->
  e = SystemExit 1
  \/ (exists msg, e = AttributeError msg)
  \/ (exists msg, e = TypeError msg).
Proof.
  intros Hw Hl. unfold build_inventory, bind.
  destruct (get_tofu_outputs json_loads signal_name w s) as [s1 [raw|e1]] eqn:Hg.
  - destruct (extraction_ready raw) eqn:Hready.
    + destruct (ready_is_dict _ Hready) as [d ->].
      rewrite (body_on_ready _ _ Hready). cbn zeta.
      destruct (truthy _); [|intros [= _ <-]; now left].
      destruct (as_key _); [discriminate|].
      intros [= _ <-]. right. right. eauto.
    + destruct (body_not_ready _ Hready) as [msg ->].
      intros [= _ <-]. right. left. eauto.
  - intros [= _ <-]. left. revert Hg.
    unfold get_tofu_outputs, try_except, bind, subprocess_run, lift.
    destruct (w tofu_cmd) as [e0|rc out err] eqn:Ew.
    + specialize (Hw e0 eq_refl).
      destruct e0; try discriminate Hw; cbn; intros H; inversion H; reflexivity.
    + destruct (rc =? 0); [|cbn; intros H; inversion H; reflexivity].
      cbn [cp_stdout]. destruct (json_loads out) as [v|e0] eqn:El; [discriminate|].
      specialize (Hl _ _ El).
      destruct e0; try discriminate Hl; cbn; intros H; inversion H; reflexivity.
Qed.

(** X13. When the start of the command and [json.loads] raise nothing but
    the three exceptions the script catches, a run ends with exit status 0
    or 1, whatever the arguments and the world: an exception that reaches
    the top is then an [AttributeError] or a [TypeError] of the script's
    own. *)
Theorem exit_status_zero_or_one (argv : list pystr) (w : world) :
  (forall e, w tofu_cmd = StartRaises e -> handled e = true) ->
  (forall text e, json_loads text = Raise e -> handled e = true) ->
  (exit_status (run json_loads signal_name float_repr argv w) = 0
   \/ exit_status (run json_loads signal_name float_repr argv w) = 1)
  /\ (forall e, uncaught (run json_loads signal_name float_repr argv w) = Some e ->
      (exists msg, e = AttributeError msg) \/ (exists msg, e = TypeError msg)).
Proof.
  intros Hw Hl. rewrite run_cases.
  destruct ((List.length argv =? 2)%nat && pystr_eqb (nth 1 argv []) (u "--list")).
  - destruct (build_inventory json_loads signal_name w io0) as [s [doc|e]] eqn:Hb.
    + split; [now left | discriminate].
    + destruct (build_inventory_raises _ _ _ _ Hw Hl Hb)
        as [-> | [[msg ->] | [msg ->]]].
      * split; [now right | discriminate].
      * split; [now right|]. intros e [= <-]. left. eauto.
      * split; [now right|]. intros e [= <-]. right. eauto.
  - destruct ((List.length argv =? 3)%nat
              && pystr_eqb (nth 1 argv []) (u "--host"));
      (split; [auto | discriminate]).
Qed.

End Coverage.

(** * Runs of the further sample worlds *)

Lemma loads_of_handled (table : list (pystr * pyval)) (text : pystr) (e : exc) :
  Sample.loads_of table text = Raise e -> handled e = true.
Proof.
  induction table as [|[t v] rest IH]; cbn [Sample.loads_of].
  - intros [= <-]. reflexivity.
  - destruct (pystr_eqb t text); [discriminate | exact IH].
Qed.

Lemma unparsable_output_is_reported_witness :
  let w := Sample.tofu_prints 0 (u "not json") [] in
  w tofu_cmd = Exited 0 (u "not json") []
  /\ Sample.loads (u "not json")
     = Raise (JSONDecodeError (u "Expecting value: line 1 column 1 (char 0)"))
  /\ run Sample.loads Sample.no_signal Sample.no_float Sample.argv_list w
     = mkEnd []
         (u "Error parsing tofu output: "
          ++ u "Expecting value: line 1 column 1 (char 0)" ++ [newline])
         [tofu_cmd] None 1.
Proof.
  intros w. do 2 (split; [reflexivity|]).
  apply (unparsable_output_is_reported
           Sample.loads Sample.no_signal Sample.no_float w
           (u "dynamic_inventory.py") (u "not json") []
           (u "Expecting value: line 1 column 1 (char 0)"));
    reflexivity.
Defined.

Lemma missing_binary_is_reported_witness :
  More.not_found tofu_cmd
  = StartRaises (FileNotFoundError
                   (u "[Errno 2] No such file or directory: 'tofu'"))
  /\ run Sample.loads Sample.no_signal Sample.no_float Sample.argv_list
         More.not_found
     = mkEnd []
         (u "Error: 'tofu' command not found. Please ensure OpenTofu is installed."
          ++ [newline])
         [tofu_cmd] None 1.
Proof.
  split; [reflexivity|].
  apply (missing_binary_is_reported
           Sample.loads Sample.no_signal Sample.no_float More.not_found
           (u "dynamic_inventory.py")
           (u "[Errno 2] No such file or directory: 'tofu'")).
  reflexivity.
Defined.

Lemma other_exceptions_pass_through_witness :
  let e := OtherError (u "PermissionError")
                      (u "[Errno 13] Permission denied: 'tofu'") in
  let r := run Sample.loads Sample.no_signal Sample.no_float Sample.argv_list
               More.no_permission in
  More.no_permission tofu_cmd = StartRaises e
  /\ handled e = false
  /\ get_tofu_outputs Sample.loads Sample.no_signal More.no_permission io0
     = (after_tofu io0, Raise e)
  /\ build_inventory Sample.loads Sample.no_signal More.no_permission io0
     = (after_tofu io0, Raise e)
  /\ written_out r = [] /\ written_err r = [] /\ started r = [tofu_cmd]
  /\ uncaught r = Some e.
Proof.
  intros e r. do 2 (split; [reflexivity|]).
  destruct (other_exceptions_pass_through
              Sample.loads Sample.no_signal Sample.no_float More.no_permission
              (u "dynamic_inventory.py") io0 e)
    as (Hg & Hb & Hout & Herr & Hst & Hend).
  - left. reflexivity.
  - reflexivity.
  - assert (Hu : uncaught r = Some e) by (apply Hend; intros code; discriminate).
    repeat split; assumption.
Defined.

Lemma output_only_on_success_witness :
  let r := run Sample.loads Sample.no_signal Sample.no_float Sample.argv_list
               (Sample.tofu_prints 0 Sample.outputs_text []) in
  written_out r <> []
  /\ exit_status r = 0 /\ uncaught r = None /\ written_err r = [].
Proof.
  intros r.
  assert (Hout : written_out r <> []) by (vm_compute; discriminate).
  split; [exact Hout|].
  exact (output_only_on_success
           Sample.loads Sample.no_signal Sample.no_float Sample.argv_list
           (Sample.tofu_prints 0 Sample.outputs_text []) Hout).
Defined.

Lemma only_two_values_matter_witness :
  let w1 := Sample.tofu_prints 0 Sample.outputs_text [] in
  let w2 := Sample.tofu_prints 0 More.with_region_text [] in
  get_tofu_outputs More.loads Sample.no_signal w1 io0
  = (after_tofu io0, Ok Sample.outputs)
  /\ get_tofu_outputs More.loads Sample.no_signal w2 io0
     = (after_tofu io0, Ok More.with_region)
  /\ build_inventory More.loads Sample.no_signal w1 io0
     = build_inventory More.loads Sample.no_signal w2 io0.
Proof.
  intros w1 w2. do 2 (split; [reflexivity|]).
  apply (only_two_values_matter
           More.loads Sample.no_signal w1 w2 io0 (after_tofu io0) (after_tofu io0)
           Sample.outputs More.with_region);
    reflexivity.
Defined.

Lemma returned_document_fields_witness :
  let w := Sample.tofu_prints 0 More.with_region_text [] in
  let doc := schema_document (KStr (u "203.0.113.5")) (PStr (u "ubuntu")) in
  get_tofu_outputs More.loads Sample.no_signal w io0
  = (after_tofu io0, Ok More.with_region)
  /\ build_inventory More.loads Sample.no_signal w io0 = (after_tofu io0, Ok doc)
  /\ exists v,
      output_value More.with_region (u "instance_public_ip") = Some v
      /\ truthy v = true
      /\ group_hosts doc = Some (PList [v])
      /\ hostvars_keys doc = Some [v]
      /\ host_ansible_hosts doc = [Some v]
      /\ group_key_file doc = Some (PStr (u "./demo-key"))
      /\ top_level_keys doc = [PStr (u "web_servers"); PStr (u "_meta")].
Proof.
  intros w doc. do 2 (split; [reflexivity|]).
  apply (returned_document_fields
           More.loads Sample.no_signal w io0 (after_tofu io0) (after_tofu io0)
           More.with_region doc);
    reflexivity.
Defined.

Lemma list_prints_lines_for_strings_witness :
  let w := Sample.tofu_prints 0 More.accented_text [] in
  w tofu_cmd = Exited 0 More.accented_text []
  /\ More.loads More.accented_text = Ok More.accented
  /\ encode_basestring_ascii More.accented_user
     = [quote] ++ u "ren\u00e9" ++ [quote]
  /\ run More.loads Sample.no_signal Sample.no_float Sample.argv_list w
     = mkEnd (inventory_lines (Sample.q "203.0.113.5")
                              (encode_basestring_ascii More.accented_user)
              ++ [newline])
             [] [tofu_cmd] None 0.
Proof.
  intros w. do 3 (split; [reflexivity|]).
  apply (list_prints_lines_for_strings
           More.loads Sample.no_signal Sample.no_float w
           (u "dynamic_inventory.py") More.accented_text [] More.accented
           (u "203.0.113.5") More.accented_user);
    try reflexivity.
  - discriminate.
  - left. reflexivity.
Defined.

Lemma output_is_ascii_witness :
  let w := Sample.tofu_prints 0 More.accented_text [] in
  is_ascii More.accented_user = false
  /\ is_ascii (written_out
                 (run More.loads Sample.no_signal Sample.no_float
                      Sample.argv_list w)) = true.
Proof.
  intros w. split; [reflexivity|].
  apply (output_is_ascii More.loads Sample.no_signal Sample.no_float).
  intros f. reflexivity.
Defined.

Lemma command_error_stream_is_discarded_witness :
  let w1 := Sample.tofu_prints 0 Sample.outputs_text [] in
  let w2 := Sample.tofu_prints 0 Sample.outputs_text
                               (u "Warning: Value for undeclared variable") in
  run Sample.loads Sample.no_signal Sample.no_float Sample.argv_list w1
  = run Sample.loads Sample.no_signal Sample.no_float Sample.argv_list w2.
Proof.
  intros w1 w2.
  apply (command_error_stream_is_discarded
           Sample.loads Sample.no_signal Sample.no_float Sample.argv_list w1 w2
           0 Sample.outputs_text [] (u "Warning: Value for undeclared variable"));
    reflexivity.
Defined.

Lemma unhashable_address_breaks_run_witness :
  let w := Sample.tofu_prints 0 Sample.array_address_text [] in
  let v := PList [PStr (u "203.0.113.5")] in
  output_value Sample.array_address (u "instance_public_ip") = Some v
  /\ truthy v = true
  /\ as_key v = None
  /\ run Sample.loads Sample.no_signal Sample.no_float Sample.argv_list w
     = mkEnd [] [] [tofu_cmd] (Some (TypeError (u "unhashable type: 'list'"))) 1.
Proof.
  intros w v. do 3 (split; [reflexivity|]).
  apply (unhashable_address_breaks_run
           Sample.loads Sample.no_signal Sample.no_float w
           (u "dynamic_inventory.py") Sample.array_address_text []
           Sample.array_address v);
    reflexivity.
Defined.

Lemma exit_status_zero_or_one_witness :
  let r := run Sample.loads Sample.no_signal Sample.no_float Sample.argv_list
               (Sample.tofu_prints 0 Sample.array_address_text []) in
  (exit_status r = 0 \/ exit_status r = 1)
  /\ (forall e, uncaught r = Some e ->
      (exists msg, e = AttributeError msg) \/ (exists msg, e = TypeError msg)).
Proof.
  intros r.
  apply (exit_status_zero_or_one
           Sample.loads Sample.no_signal Sample.no_float Sample.argv_list
           (Sample.tofu_prints 0 Sample.array_address_text [])).
  - intros e. discriminate.
  - intros text e. apply loads_of_handled.
Defined.
